(** * comission: the WordPress analyser ([comission/CMS/WordPress.py])

    A shallow embedding of the [WP] class: the per-addon stages
    ([get_addon_last_version], [check_vulns_addon], [check_addon_alteration]),
    the core vulnerability check, the orchestrating loop [addon_analysis] and
    the [wp-content] discovery, together with the library routines they rely
    on. *)

From Stdlib Require Import ZArith Ascii String List Bool Lia.
From stdpp Require Import base option list strings gmap sorting pretty.

Local Open Scope Z_scope.

(** ** Exceptions and results

    Python exceptions that occur in the module.  A computation either returns
    a value or raises. *)

Inductive exn : Type :=
  | HTTPError (status : Z)
  | ConnectionError
  | KeyError (key : string)
  | TypeError
  | AttributeError
  | UnboundLocalError
  | StopIteration
  | IndexError
  | FileNotFoundError
  | BadZipFile.

Inductive result (A : Type) : Type :=
  | Ok (a : A)
  | Raise (e : exn).
Arguments Ok {A} a.
Arguments Raise {A} e.

Definition rbind {A B} (m : result A) (k : A → result B) : result B :=
  match m with
  | Ok a => k a
  | Raise e => Raise e
  end.

Global Instance result_ret : MRet result := λ A a, Ok a.
Global Instance result_bind : MBind result := λ A B k m, rbind m k.

(** ** [distutils.version.LooseVersion]

    The comparison at line 308 is the one of the Python standard library.
    The definitions follow the methods [__init__], [parse], [_cmp] and
    [__lt__] of that class.  Strings are read as sequences of ASCII
    characters. *)

Module LooseVersion.

(** A parsed component: an [int] or a [str]. *)
Inductive component : Type :=
  | CInt (n : Z)
  | CStr (s : string).

(** Character classes of [component_re = (\d+ | [a-z]+ | \.)]. *)
Inductive cclass : Type := Digit | Lower | Dot | Other.

Definition classify (c : ascii) : cclass :=
  let n := N_of_ascii c in
  if ((48 <=? n) && (n <=? 57))%N then Digit
  else if ((97 <=? n) && (n <=? 122))%N then Lower
  else if (n =? 46)%N then Dot
  else Other.

Definition run_class_eqb (k k' : cclass) : bool :=
  match k, k' with
  | Digit, Digit | Lower, Lower => true
  | _, _ => false
  end.

Fixpoint snoc (s : string) (c : ascii) : string :=
  match s with
  | EmptyString => String c EmptyString
  | String a s' => String a (snoc s' c)
  end.

(** [component_re.split(vstring)]: the result alternates the text between
    two matches (possibly empty) and the matched text.  The scanner is
    either inside unmatched text or inside a run of digits or of lower-case
    letters. *)
Inductive scan : Type :=
  | InPiece (p : string)
  | InRun (k : cclass) (r : string).

Definition enter (p : string) (c : ascii) : list string * scan :=
  match classify c with
  | Digit => ([p], InRun Digit (String c EmptyString))
  | Lower => ([p], InRun Lower (String c EmptyString))
  | Dot => ([p; "."], InPiece "")
  | Other => ([], InPiece (snoc p c))
  end.

Definition step (st : scan) (c : ascii) : list string * scan :=
  match st with
  | InPiece p => enter p c
  | InRun k r =>
      if run_class_eqb k (classify c) then ([], InRun k (snoc r c))
      else let '(out, st') := enter "" c in (r :: out, st')
  end.

Fixpoint split_go (st : scan) (s : string) : list string :=
  match s with
  | EmptyString =>
      match st with
      | InPiece p => [p]
      | InRun _ r => [r; ""]
      end
  | String c s' => let '(out, st') := step st c in out ++ split_go st' s'
  end.

Definition re_split (vstring : string) : list string :=
  split_go (InPiece "") vstring.

(** [int(obj)] on a component: it succeeds exactly on a non-empty run of
    digits (a component never mixes digits with other characters). *)
Definition digit_value (c : ascii) : option Z :=
  let n := N_of_ascii c in
  if ((48 <=? n) && (n <=? 57))%N then Some (Z.of_N n - 48) else None.

Fixpoint int_digits (acc : Z) (s : string) : option Z :=
  match s with
  | EmptyString => Some acc
  | String c s' =>
      match digit_value c with
      | Some d => int_digits (10 * acc + d) s'
      | None => None
      end
  end.

Definition py_int (s : string) : option Z :=
  match s with
  | EmptyString => None
  | _ => int_digits 0 s
  end.

Definition to_component (x : string) : component :=
  match py_int x with
  | Some n => CInt n
  | None => CStr x
  end.

(** [parse]: keep the non-empty pieces other than ["."], turn the numeric
    ones into integers. *)
Definition keep (x : string) : bool :=
  negb (String.eqb x "") && negb (String.eqb x ".").

Definition parse (vstring : string) : list component :=
  map to_component (filter (λ x, keep x = true) (re_split vstring)).

(** The object: [version] is [None] when the attribute was never set. *)
Record t : Type := { vstring : option string; version : option (list component) }.

(** [__init__(vstring)]: [parse] runs only on a truthy argument; [None]
    stands for Python's [None]. *)
Definition make (v : option string) : t :=
  match v with
  | None | Some EmptyString => {| vstring := None; version := None |}
  | Some s => {| vstring := Some s; version := Some (parse s) |}
  end.

(** Comparison of list elements: [==] across types is [False], [<] and [>]
    across types raise [TypeError]. *)
Definition component_eqb (x y : component) : bool :=
  match x, y with
  | CInt a, CInt b => a =? b
  | CStr a, CStr b => String.eqb a b
  | _, _ => false
  end.

Definition component_lt (x y : component) : result bool :=
  match x, y with
  | CInt a, CInt b => Ok (a <? b)
  | CStr a, CStr b => Ok (String.ltb a b)
  | _, _ => Raise TypeError
  end.

Definition component_gt (x y : component) : result bool :=
  match x, y with
  | CInt a, CInt b => Ok (b <? a)
  | CStr a, CStr b => Ok (String.ltb b a)
  | _, _ => Raise TypeError
  end.

Fixpoint list_eqb (a b : list component) : bool :=
  match a, b with
  | [], [] => true
  | x :: a', y :: b' => component_eqb x y && list_eqb a' b'
  | _, _ => false
  end.

(** List ordering: the first position where the elements differ decides;
    without one, the shorter list is the smaller. *)
Fixpoint list_lt (a b : list component) : result bool :=
  match a, b with
  | [], [] => Ok false
  | [], _ :: _ => Ok true
  | _ :: _, [] => Ok false
  | x :: a', y :: b' => if component_eqb x y then list_lt a' b' else component_lt x y
  end.

Fixpoint list_gt (a b : list component) : result bool :=
  match a, b with
  | [], [] => Ok false
  | [], _ :: _ => Ok false
  | _ :: _, [] => Ok true
  | x :: a', y :: b' => if component_eqb x y then list_gt a' b' else component_gt x y
  end.

Definition get_version (v : t) : result (list component) :=
  match version v with
  | Some l => Ok l
  | None => Raise AttributeError
  end.

(** [_cmp]: 0, -1 or 1; falling off the end returns [None], which the
    caller cannot compare with 0. *)
Definition _cmp (self other : t) : result (option Z) :=
  a ← get_version self;
  b ← get_version other;
  if list_eqb a b then Ok (Some 0)
  else
    l ← list_lt a b;
    if (l : bool) then Ok (Some (-1))
    else
      g ← list_gt a b;
      if (g : bool) then Ok (Some 1) else Ok None.

(** [__lt__]. *)
Definition lt (self other : t) : result bool :=
  c ← _cmp self other;
  match (c : option Z) with
  | Some n => Ok (n <? 0)
  | None => Raise TypeError
  end.

End LooseVersion.

(** ** Dotted-numeric version strings

    The reading of a version string as the sequence of the numbers between its
    dots; it is defined only on well-formed strings (non-empty runs of digits
    separated by single dots). *)

Fixpoint split_dot (s : string) : list string :=
  match s with
  | EmptyString => [EmptyString]
  | String c s' =>
      if Ascii.eqb c "." then EmptyString :: split_dot s'
      else match split_dot s' with
           | r :: rs => String c r :: rs
           | [] => [String c EmptyString]
           end
  end.

Definition numeric_runs (s : string) : option (list Z) :=
  mapM LooseVersion.py_int (split_dot s).

(** The ordering the specification describes: the shorter sequence is padded
    with zeros before the numbers are compared left to right. *)
Fixpoint sign_of_rest (a : list Z) : comparison :=
  match a with
  | [] => Eq
  | x :: a' => match x ?= 0 with Eq => sign_of_rest a' | c => c end
  end.

Fixpoint padded_compare (a b : list Z) : comparison :=
  match a, b with
  | _, [] => sign_of_rest a
  | [], _ => CompOpp (sign_of_rest b)
  | x :: a', y :: b' => match x ?= y with Eq => padded_compare a' b' | c => c end
  end.

Definition Z_of_comparison (c : comparison) : Z :=
  match c with Eq => 0 | Lt => -1 | Gt => 1 end.


(** ** Data model *)

(** One call of [log.print_cms(type, msg, msg_default, level)]. *)
Record log_entry : Type := print_cms {
  lg_type : string;
  lg_msg : string;
  lg_msg_default : string;
  lg_level : Z
}.

(** An entry of the [vulnerabilities] array of the vulnerability database. *)
Record vuln : Type := {
  vuln_id : Z;
  vuln_title : string;
  vuln_type : string;
  vuln_fixed_in : option string    (* [None] is JSON [null] *)
}.

(** The [vuln_details] dictionary built for a reported vulnerability. *)
Record vuln_details : Type := {
  vd_name : string;
  vd_link : string;
  vd_type : string;
  vd_poc : string;
  vd_fixed_in : option string
}.

(** The [addon] dictionary created by [addon_analysis]; the key [mu] is
    present for plugins only. *)
Record addon : Type := {
  a_type : string;
  a_status : string;
  a_name : string;
  a_version : string;
  a_last_version : string;
  a_last_release_date : string;
  a_link : string;
  a_altered : string;
  a_cve : string;
  a_vulns : list vuln_details;
  a_notes : string;
  a_alterations : list string;
  a_filename : string;
  a_path : string;
  a_mu : option string
}.

Definition set_last_release (v d l : string) (a : addon) : addon :=
  {| a_type := a_type a; a_status := a_status a; a_name := a_name a;
     a_version := a_version a; a_last_version := v; a_last_release_date := d;
     a_link := l; a_altered := a_altered a; a_cve := a_cve a;
     a_vulns := a_vulns a; a_notes := a_notes a;
     a_alterations := a_alterations a; a_filename := a_filename a;
     a_path := a_path a; a_mu := a_mu a |}.

Definition set_altered (x : string) (a : addon) : addon :=
  {| a_type := a_type a; a_status := a_status a; a_name := a_name a;
     a_version := a_version a; a_last_version := a_last_version a;
     a_last_release_date := a_last_release_date a; a_link := a_link a;
     a_altered := x; a_cve := a_cve a; a_vulns := a_vulns a;
     a_notes := a_notes a; a_alterations := a_alterations a;
     a_filename := a_filename a; a_path := a_path a; a_mu := a_mu a |}.

Definition set_alterations (alts : list string) (a : addon) : addon :=
  {| a_type := a_type a; a_status := a_status a; a_name := a_name a;
     a_version := a_version a; a_last_version := a_last_version a;
     a_last_release_date := a_last_release_date a; a_link := a_link a;
     a_altered := a_altered a; a_cve := a_cve a; a_vulns := a_vulns a;
     a_notes := a_notes a; a_alterations := alts;
     a_filename := a_filename a; a_path := a_path a; a_mu := a_mu a |}.

Definition set_cve (x : string) (a : addon) : addon :=
  {| a_type := a_type a; a_status := a_status a; a_name := a_name a;
     a_version := a_version a; a_last_version := a_last_version a;
     a_last_release_date := a_last_release_date a; a_link := a_link a;
     a_altered := a_altered a; a_cve := x; a_vulns := a_vulns a;
     a_notes := a_notes a; a_alterations := a_alterations a;
     a_filename := a_filename a; a_path := a_path a; a_mu := a_mu a |}.

Definition append_vuln (d : vuln_details) (a : addon) : addon :=
  {| a_type := a_type a; a_status := a_status a; a_name := a_name a;
     a_version := a_version a; a_last_version := a_last_version a;
     a_last_release_date := a_last_release_date a; a_link := a_link a;
     a_altered := a_altered a; a_cve := a_cve a; a_vulns := a_vulns a ++ [d];
     a_notes := a_notes a; a_alterations := a_alterations a;
     a_filename := a_filename a; a_path := a_path a; a_mu := a_mu a |}.

Definition set_notes (x : string) (a : addon) : addon :=
  {| a_type := a_type a; a_status := a_status a; a_name := a_name a;
     a_version := a_version a; a_last_version := a_last_version a;
     a_last_release_date := a_last_release_date a; a_link := a_link a;
     a_altered := a_altered a; a_cve := a_cve a; a_vulns := a_vulns a;
     a_notes := x; a_alterations := a_alterations a;
     a_filename := a_filename a; a_path := a_path a; a_mu := a_mu a |}.

Definition set_version (x : string) (a : addon) : addon :=
  {| a_type := a_type a; a_status := a_status a; a_name := a_name a;
     a_version := x; a_last_version := a_last_version a;
     a_last_release_date := a_last_release_date a; a_link := a_link a;
     a_altered := a_altered a; a_cve := a_cve a; a_vulns := a_vulns a;
     a_notes := a_notes a; a_alterations := a_alterations a;
     a_filename := a_filename a; a_path := a_path a; a_mu := a_mu a |}.

Definition set_filename (x : string) (a : addon) : addon :=
  {| a_type := a_type a; a_status := a_status a; a_name := a_name a;
     a_version := a_version a; a_last_version := a_last_version a;
     a_last_release_date := a_last_release_date a; a_link := a_link a;
     a_altered := a_altered a; a_cve := a_cve a; a_vulns := a_vulns a;
     a_notes := a_notes a; a_alterations := a_alterations a;
     a_filename := x; a_path := a_path a; a_mu := a_mu a |}.

(** A directory tree as [os.walk] lists it: one entry per regular file, with
    the path relative to the root, the bytes of the file and the metadata the
    file system keeps next to them. *)
Record file_entry : Type := {
  f_path : string;
  f_content : string;
  f_mtime : Z;
  f_mode : Z
}.

Definition tree : Type := list file_entry.

(** [filecmp.dircmp(left, right, ignore)]. *)
Record dircmp : Type := {
  dc_left : tree;
  dc_right : tree;
  dc_ignore : list string
}.

(** An HTTP response: the status, the body as text, the body decoded as the
    JSON object of the vulnerability database (product identifier to its
    [vulnerabilities] array), and the tree found under the reference directory
    once the body, an archive, is unpacked. *)
Record response : Type := {
  status_code : Z;
  text : string;
  json : gmap string (list vuln);
  content : tree
}.

(** What a stage hands back: the record after the stage, the lines it
    logged, and the returned pair. *)
Record stage_out (V : Type) : Type := {
  out_addon : addon;
  out_log : list log_entry;
  out_value : V;
  out_err : option exn
}.
Arguments out_addon {V} _.
Arguments out_log {V} _.
Arguments out_value {V} _.
Arguments out_err {V} _.

(** A return value that is either a string or a list. *)
Inductive str_or (A : Type) : Type :=
  | Str (s : string)
  | Lst (l : list A).
Arguments Str {A} s.
Arguments Lst {A} l.

(** The attributes of a [WP] object set by its constructor. *)
Record WP : Type := {
  dir_path : string;
  wp_content : string;
  plugins_dir : string;
  themes_dir : string;
  wpvulndb_token : string
}.

(** ** The surroundings of the class

    What the module obtains from the network, the file system and the
    collaborating modules ([comission.utilsCMS], [GenericCMS], [checksumdir],
    [filecmp], [re]) is taken as given. *)
Class Env : Type := {
  (** [requests.get(url, headers=...)]: a response, or an exception raised by
      the transport. *)
  requests_get : string → list (string * string) → result response;
  (** [pattern.search(text)]: the first group of the match, if any. *)
  re_search : string → string → option string;
  (** [uCMS.get_poc(url)]. *)
  get_poc : string → bool;
  (** [uCMS.fetch_addons(addons_path, key)]. *)
  fetch_addons : string → string → list string;
  (** [GenericCMS.get_addon_version(addon, addon_path, regexp, to_strip)]. *)
  get_addon_version : addon → string → string → string → result (stage_out string);
  (** [os.path.isfile]. *)
  isfile : string → bool;
  (** The directory names of the first entry of [os.walk(path)], or nothing
      when the walk yields no entry. *)
  walk_dirs : string → option (list string);
  (** [zipfile.ZipFile(io.BytesIO(response.content), "r")] with
      [extractall(temp_directory)] and [close()] (lines 192-194): nothing, or
      the exception raised, [zipfile.BadZipFile] for a body that is no
      archive. *)
  extractall : response → string → result unit;
  (** [os.path.isdir] at the time [dirhash] is called on the path:
      [checksumdir.dirhash] raises [TypeError] for a path that is no
      directory. *)
  isdir : string → bool;
  (** The directory tree found at a path. *)
  read_tree : string → tree;
  (** [checksumdir.dirhash(path, "sha1")]. *)
  dirhash : tree → string;
  (** [uCMS.diff_files(dcmp, alterations, target)]: the list [alterations]
      after the call. *)
  diff_files : dircmp → list string → string → list string;
  (** [uCMS.TempDir.create()]. *)
  temp_directory : string
}.

(** [os.path.join] for POSIX paths. *)
Definition starts_with_sep (s : string) : bool :=
  match s with
  | String c _ => Ascii.eqb c "/"
  | EmptyString => false
  end.

Fixpoint ends_with_sep (s : string) : bool :=
  match s with
  | EmptyString => false
  | String c EmptyString => Ascii.eqb c "/"
  | String _ s' => ends_with_sep s'
  end.

Definition path_join2 (path b : string) : string :=
  if starts_with_sep b then b
  else if String.eqb path "" || ends_with_sep path then path +:+ b
  else path +:+ "/" +:+ b.

Definition path_join (a : string) (p : list string) : string :=
  foldl path_join2 a p.

(** The part of [s] before the first [T]: [s.split("T")[0]]. *)
Fixpoint before_T (s : string) : string :=
  match s with
  | EmptyString => EmptyString
  | String c s' => if Ascii.eqb c "T" then EmptyString else String c (before_T s')
  end.

(** [s.replace(".", "")]. *)
Fixpoint remove_dots (s : string) : string :=
  match s with
  | EmptyString => EmptyString
  | String c s' => if Ascii.eqb c "." then remove_dots s' else String c (remove_dots s')
  end.

(** [response.raise_for_status()] raises for the 4xx and 5xx statuses. *)
Definition is_http_error (status : Z) : bool :=
  (400 <=? status) && (status <? 600).

Definition raise_for_status (r : response) : result unit :=
  if is_http_error (status_code r) then Raise (HTTPError (status_code r)) else Ok ().

(** [str(x)] for an optional string. *)
Definition str_opt (x : option string) : string :=
  match x with
  | Some s => s
  | None => "None"
  end.

(** Class attributes. *)
Definition site_url : string := "https://wordpress.org/".
Definition release_site : string := "https://api.wordpress.org/core/version-check/1.7/".
Definition download_core_url : string := "https://wordpress.org/wordpress-".
Definition download_addon_url : string := "https://downloads.wordpress.org/plugin/".
Definition cve_ref_url : string := "https://wpvulndb.com/api/v3/".

(** The patterns compiled by the constructor; [dq] is the double quote. *)
Definition dq : string := String "034"%char EmptyString.
Definition regex_version_core : string := "\$wp_version = '(.*)';".
Definition regex_version_addon : string := "(?i)Version: (.*)".
Definition regex_version_addon_web_plugin : string :=
  dq +:+ "softwareVersion" +:+ dq +:+ ": " +:+ dq +:+ "(.*)" +:+ dq.
Definition regex_version_addon_web_theme : string := "Version: <strong>(.*)</strong>".
Definition regex_date_last_release_plugin : string :=
  dq +:+ "dateModified" +:+ dq +:+ ": " +:+ dq +:+ "(.*)" +:+ dq.
Definition regex_date_last_release_theme : string := "Last updated: <strong>(.*)</strong>".

Definition url_details : string := "https://wpvulndb.com/vulnerabilities/".

Definition auth_headers (self : WP) : list (string * string) :=
  [("Authorization", "Token token=" +:+ wpvulndb_token self)].

Definition newline : string := String "010"%char EmptyString.
Definition tab : string := String "009"%char EmptyString.

Definition from_option {A} (e : exn) (x : option A) : result A :=
  match x with
  | Some a => Ok a
  | None => Raise e
  end.

Definition returned {V} (a : addon) (lg : list log_entry) (v : V) (e : option exn)
    : result (stage_out V) :=
  Ok {| out_addon := a; out_log := lg; out_value := v; out_err := e |}.

(** ** The methods of [WP] *)

Section WordPress.
Context `{Env}.

(** *** [get_wp_content] (lines 68-87) *)

Definition issubset (tocheck l : list string) : bool :=
  forallb (λ t, bool_decide (t ∈ l)) tocheck.

Fixpoint find_suspects (dir_path : string) (dirs suspects : list string)
    : result (list string) :=
  match dirs with
  | [] => Ok suspects
  | dirname :: dirs' =>
      sub ← from_option StopIteration (walk_dirs (path_join dir_path [dirname]));
      if issubset ["plugins"; "themes"] sub
      then find_suspects dir_path dirs' (suspects ++ [dirname])
      else find_suspects dir_path dirs' suspects
  end.

Definition get_wp_content (dir_path : string)
    : result (list string * list log_entry) :=
  dirs ← from_option StopIteration (walk_dirs dir_path);
  suspects ← find_suspects dir_path dirs [];
  let lg :=
    if (1 <? Z.of_nat (length suspects))
    then print_cms "warning"
           ("[+] Several directories are suspected to be wp-contents. "
            +:+ "Please check and if needed force one with --wp-content.") "" 0
         :: map (λ path, print_cms "info" ("[+] " +:+ path) "" 1) suspects
    else [] in
  let suspects :=
    if (Z.of_nat (length suspects) =? 0) then suspects ++ ["wp-content"]
    else suspects in
  Ok (suspects, lg).

(** *** [__init__] (lines 28-66): the attributes of the object *)

Definition __init__ (dir_path wp_content plugins_dir themes_dir wpvulndb_token : string)
    : result WP :=
  wp_content ←
    (if String.eqb wp_content ""
     then r ← get_wp_content dir_path;
          from_option IndexError ((r : list string * list log_entry).1 !! 0%nat)
     else Ok wp_content);
  let plugins_dir :=
    if String.eqb plugins_dir "" then path_join dir_path [wp_content; "plugins"]
    else plugins_dir in
  let themes_dir :=
    if String.eqb themes_dir "" then path_join dir_path [wp_content; "themes"]
    else themes_dir in
  Ok {| dir_path := dir_path; wp_content := wp_content;
        plugins_dir := plugins_dir; themes_dir := themes_dir;
        wpvulndb_token := wpvulndb_token |}.

Variable self : WP.

(** *** [get_addon_main_file] (lines 89-112) *)

Definition get_addon_main_file (a : addon) (addon_path : string) : addon :=
  if String.eqb (a_type a) "themes" then set_filename "style.css" a
  else if String.eqb (a_type a) "plugins" then
    let filename_list :=
      [a_name a +:+ ".php"; "plugin.php"]
      ++ (if bool_decide (a_mu a ≠ Some "YES") then ["plugin.php"] else []) in
    let main_file :=
      filter (λ filename, isfile (path_join addon_path [filename]) = true)
             filename_list in
    match main_file with
    | filename :: _ => set_filename filename a
    | [] => set_filename "nofile" a
    end
  else a.

(** *** [get_addon_last_version] (lines 125-171) *)

Definition web_regexps (addon_type : string) : option (string * string) :=
  if String.eqb addon_type "plugins"
  then Some (regex_version_addon_web_plugin, regex_date_last_release_plugin)
  else if String.eqb addon_type "themes"
  then Some (regex_version_addon_web_theme, regex_date_last_release_theme)
  else None.

(** [releases_url] (line 128). *)
Definition releases_url_of (a : addon) : string :=
  site_url +:+ a_type a +:+ "/" +:+ a_name a +:+ "/".

Definition get_addon_last_version (a : addon) : result (stage_out string) :=
  let releases_url := releases_url_of a in
  response ← requests_get releases_url [];
  match raise_for_status response with
  | Raise (HTTPError st) =>
      let msg := "Addon not on official site. Search manually !" in
      returned (set_notes msg a) [print_cms "alert" ("[-] " +:+ msg) "" 1]
               "" (Some (HTTPError st))
  | Raise e => Raise e
  | Ok _ =>
      if status_code response =? 200 then
        let page := text response in
        regexps ← from_option UnboundLocalError (web_regexps (a_type a));
        let '(version_web_regexp, date_last_release_regexp) :=
          (regexps : string * string) in
        match re_search version_web_regexp page,
              re_search date_last_release_regexp page with
        | Some last_version, Some date =>
            let a' := set_last_release last_version (before_T date) releases_url a in
            let lg :=
              if String.eqb (a_last_version a') (a_version a')
              then [print_cms "good" "Up to date !" "" 1]
              else [print_cms "alert" "Outdated, last version: "
                      (a_last_version a' +:+ " ( " +:+ a_last_release_date a'
                       +:+ " )" +:+ newline +:+ tab +:+ "Check : " +:+ releases_url) 1] in
            returned a' lg (a_last_version a') None
        | _, _ => returned a [] (a_last_version a) None
        end
      else returned a [] (a_last_version a) None
  end.

(** *** [check_addon_alteration] (lines 173-224) *)

(** [addon_url] (lines 177-182). *)
Definition addon_url_of (a : addon) : string :=
  if String.eqb (a_version a) "trunk"
  then download_addon_url +:+ a_name a +:+ ".zip"
  else download_addon_url +:+ a_name a +:+ "." +:+ a_version a +:+ ".zip".

(** The [dircmp] object of line 209. *)
Definition dcmp_of (addon_path : string) (response : response) : dircmp :=
  {| dc_left := read_tree addon_path;
     dc_right := content response;
     dc_ignore := ["css"; "img"; "js"; "fonts"; "images"] |}.

(** [dirhash(path, "sha1")], where [t] is the tree found at [path]; nothing
    in the method catches what it raises. *)
Definition dirhash_at (path : string) (t : tree) : result string :=
  if isdir path then Ok (dirhash t) else Raise TypeError.

Definition check_addon_alteration (a : addon) (addon_path temp_directory : string)
    : result (stage_out string) :=
  let addon_url := addon_url_of a in
  let lg0 := [print_cms "default" ("To download the addon: " +:+ addon_url) "" 1] in
  let altered := "" in
  response ← requests_get addon_url [];
  match raise_for_status response with
  | Raise (HTTPError st) =>
      let msg := "The download link is not standard. Search manually !" in
      returned (set_notes msg a) (lg0 ++ [print_cms "alert" msg "" 1])
               msg (Some (HTTPError st))
  | Raise e => Raise e
  | Ok _ =>
      if status_code response =? 200 then
        _ ← extractall response temp_directory;
        project_dir_hash ← dirhash_at addon_path (read_tree addon_path);
        let ref_dir := path_join temp_directory [a_name a] in
        ref_dir_hash ← dirhash_at ref_dir (content response);
        let '(altered, a1, lg1) :=
          if String.eqb project_dir_hash ref_dir_hash
          then ("NO", a,
                [print_cms "good" ("Different from sources : " +:+ "NO") "" 1])
          else
            let dcmp := dcmp_of addon_path response in
            ("YES",
             set_alterations (diff_files dcmp (a_alterations a) addon_path) a,
             [print_cms "alert" ("Different from sources : " +:+ "YES") "" 1]) in
        let a2 := set_altered altered a1 in
        let msg := "[+] For further analysis, archive downloaded here : " +:+ ref_dir in
        returned a2 (lg0 ++ lg1 ++ [print_cms "info" msg "" 1]) altered None
      else returned a lg0 altered None
  end.

(** *** [check_vulns_core] (lines 226-280) *)

Definition core_vuln_details (v : vuln) : vuln_details :=
  let vuln_url := url_details +:+ pretty (vuln_id v) in
  {| vd_name := vuln_title v;
     vd_link := vuln_url;
     vd_type := vuln_type v;
     vd_poc := if get_poc vuln_url then "YES" else "CHECK";
     vd_fixed_in := vuln_fixed_in v |}.

Fixpoint core_loop (vulns : list vuln) (vulns_details : list vuln_details)
    (lg : list log_entry) : list vuln_details * list log_entry :=
  match vulns with
  | [] => (vulns_details, lg)
  | v :: vulns' =>
      core_loop vulns' (vulns_details ++ [core_vuln_details v])
        (lg ++ [print_cms "alert" (vuln_title v) "" 1;
                print_cms "info"
                  ("[+] Fixed in version " +:+ str_opt (vuln_fixed_in v)) "" 1])
  end.

(** [url] (lines 230-231). *)
Definition core_vulns_url (version_core : string) : string :=
  cve_ref_url +:+ "wordpresses/" +:+ remove_dots version_core.

Definition check_vulns_core (version_core : string)
    : result (list log_entry * str_or vuln_details * option exn) :=
  let vulns_details := [] in
  let url := core_vulns_url version_core in
  response ← requests_get url (auth_headers self);
  match raise_for_status response with
  | Raise (HTTPError st) =>
      Ok ([print_cms "info" "No entry on wpvulndb." "" 1], Str "",
          Some (HTTPError st))
  | Raise e => Raise e
  | Ok _ =>
      if status_code response =? 200 then
        vulns ← from_option (KeyError version_core) (json response !! version_core);
        let lg := [print_cms "info" "[+] CVE list" "" 1] in
        if (0 <? Z.of_nat (length (vulns : list vuln))) then
          let '(vulns_details, lg) := core_loop vulns vulns_details lg in
          Ok (lg, Lst vulns_details, None)
        else
          Ok (lg ++ [print_cms "good" "No CVE were found" "" 1],
              Lst vulns_details, None)
      else Ok ([], Lst vulns_details, None)
  end.

(** *** [check_vulns_addon] (lines 282-352) *)

Definition addon_vuln_details (name : string) (v : vuln) : vuln_details :=
  let vuln_url := url_details +:+ pretty (vuln_id v) in
  {| vd_name := name;
     vd_link := vuln_url;
     vd_type := vuln_type v;
     vd_poc := if get_poc vuln_url then "YES" else "CHECK";
     vd_fixed_in := vuln_fixed_in v |}.

(** The body of the loop at line 302, with its [try] (lines 307-340). *)
Definition check_vuln (v : vuln) (a : addon) (lg : list log_entry)
    : result (addon * list log_entry) :=
  match LooseVersion.lt (LooseVersion.make (Some (a_version a)))
                        (LooseVersion.make (vuln_fixed_in v)) with
  | Ok true =>
      Ok (append_vuln (addon_vuln_details (vuln_title v) v) a,
          lg ++ [print_cms "alert" (vuln_title v) "" 1])
  | Ok false => Ok (a, lg)
  | Raise TypeError | Raise AttributeError =>
      Ok (append_vuln (addon_vuln_details (" To check : " +:+ vuln_title v) v) a,
          lg ++ [print_cms "alert"
                   ("Unable to compare version. Please check this "
                    +:+ "vulnerability :" +:+ vuln_title v) "" 1])
  | Raise e => Raise e
  end.

Fixpoint vulns_loop (vulns : list vuln) (a : addon) (lg : list log_entry)
    : result (addon * list log_entry) :=
  match vulns with
  | [] => Ok (a, lg)
  | v :: vulns' =>
      st ← check_vuln v a lg;
      vulns_loop vulns' (st : addon * list log_entry).1 st.2
  end.

(** [url] (line 291). *)
Definition addon_vulns_url (a : addon) : string :=
  cve_ref_url +:+ "plugins/" +:+ a_name a.

Definition check_vulns_addon (a : addon) : result (stage_out (str_or vuln)) :=
  let vulns := [] in
  let url := addon_vulns_url a in
  response ← requests_get url (auth_headers self);
  match raise_for_status response with
  | Raise (HTTPError st) =>
      let msg := "No entry on wpvulndb." in
      returned (set_cve "NO" a) [print_cms "info" ("[+] " +:+ msg) "" 1]
               (Str "") (Some (HTTPError st))
  | Raise e => Raise e
  | Ok _ =>
      if status_code response =? 200 then
        vulns ← from_option (KeyError (a_name a)) (json response !! a_name a);
        st ← vulns_loop vulns a [print_cms "info" "[+] CVE list" "" 1];
        let '(a1, lg) := (st : addon * list log_entry) in
        let a2 :=
          match a_vulns a1 with
          | _ :: _ => set_cve "YES" a1
          | [] => set_cve "NO" a1
          end in
        returned a2 lg (Lst vulns) None
      else returned a [] (Lst vulns) None
  end.

(** *** [addon_analysis] (lines 357-448) *)

Definition new_addon (addon_type addon_name : string) (mu : option string) : addon :=
  {| a_type := addon_type; a_status := "todo"; a_name := addon_name;
     a_version := ""; a_last_version := "Not found"; a_last_release_date := "";
     a_link := ""; a_altered := ""; a_cve := ""; a_vulns := []; a_notes := "";
     a_alterations := []; a_filename := ""; a_path := ""; a_mu := mu |}.

(** One turn of the inner loop (lines 387-441): the record appended to
    [addons] and the lines logged. *)
Definition analyse_addon (addon_type key addons_path temp_directory addon_name : string)
    : result (addon * list log_entry) :=
  let lg0 := [print_cms "info" ("[+] " +:+ addon_name) "" 0] in
  let addon_path := path_join addons_path [addon_name] in
  let '(a, addon_path) :=
    if String.eqb addon_type "plugins" then
      if String.eqb key "mu"
      then (new_addon addon_type addon_name (Some "YES"), path_join addons_path [])
      else (new_addon addon_type addon_name (Some "NO"), addon_path)
    else (new_addon addon_type addon_name None, addon_path) in
  let a := get_addon_main_file a addon_path in
  o1 ← get_addon_version a addon_path regex_version_addon " ";
  let o1 := (o1 : stage_out string) in
  let lg1 := lg0 ++ out_log o1 in
  if bool_decide (out_err o1 ≠ None) then Ok (out_addon o1, lg1) else
  o2 ← get_addon_last_version (out_addon o1);
  let o2 := (o2 : stage_out string) in
  let lg2 := lg1 ++ out_log o2 in
  if bool_decide (out_err o2 ≠ None) then Ok (out_addon o2, lg2) else
  o3 ← check_vulns_addon (out_addon o2);
  let o3 := (o3 : stage_out (str_or vuln)) in
  let lg3 := lg2 ++ out_log o3 in
  if bool_decide (out_err o3 ≠ None) then Ok (out_addon o3, lg3) else
  o4 ← check_addon_alteration (out_addon o3) addon_path temp_directory;
  let o4 := (o4 : stage_out string) in
  let lg4 := lg3 ++ out_log o4 in
  if bool_decide (out_err o4 ≠ None) then Ok (out_addon o4, lg4) else
  Ok (out_addon o4, lg4).

Fixpoint addons_loop (addon_type key addons_path temp_directory : string)
    (addons_name : list string) (addons : list addon) (lg : list log_entry)
    : result (list addon * list log_entry) :=
  match addons_name with
  | [] => Ok (addons, lg)
  | addon_name :: rest =>
      r ← analyse_addon addon_type key addons_path temp_directory addon_name;
      let r := (r : addon * list log_entry) in
      addons_loop addon_type key addons_path temp_directory rest
                  (addons ++ [r.1]) (lg ++ r.2)
  end.

Fixpoint paths_loop (addon_type temp_directory : string)
    (addons_paths : list (string * string)) (addons : list addon)
    (lg : list log_entry) : result (list addon * list log_entry) :=
  match addons_paths with
  | [] => Ok (addons, lg)
  | (key, addons_path) :: rest =>
      let addons_name := fetch_addons addons_path key in
      r ← addons_loop addon_type key addons_path temp_directory addons_name addons lg;
      let r := (r : list addon * list log_entry) in
      paths_loop addon_type temp_directory rest r.1 r.2
  end.

Definition addons_paths_of (addon_type : string) : list (string * string) :=
  if String.eqb addon_type "plugins" then
    [("standard", plugins_dir self);
     ("mu", path_join (dir_path self) [wp_content self; "mu-plugins"])]
  else if String.eqb addon_type "themes" then [("standard", themes_dir self)]
  else [].

Definition addon_analysis (addon_type : string)
    : result (list addon * list log_entry) :=
  let temp_directory := temp_directory in
  let banner := "#######################################################" in
  let lg :=
    [print_cms "info"
       (newline +:+ banner +:+ newline +:+ tab +:+ tab +:+ addon_type
        +:+ " analysis" +:+ newline +:+ banner) "" 0] in
  paths_loop addon_type temp_directory (addons_paths_of addon_type) [] lg.

(** The names [addon_analysis] works through, in the order of discovery. *)
Definition discovered (addon_type : string) : list string :=
  flat_map (λ kp : string * string, fetch_addons kp.2 kp.1)
           (addons_paths_of addon_type).

End WordPress.

(** ** Orderings and predicates used to state the properties *)

(** Lexicographic comparison of number sequences in which a proper prefix is
    the smaller one. *)
Fixpoint lex_compare (a b : list Z) : comparison :=
  match a, b with
  | [], [] => Eq
  | [], _ :: _ => Lt
  | _ :: _, [] => Gt
  | x :: a', y :: b' => match x ?= y with Eq => lex_compare a' b' | c => c end
  end.

Definition is_Lt (c : comparison) : bool :=
  match c with Lt => true | _ => false end.

(** The numbers of [x :: xs], where [acc] is the value of the digits read so
    far in front of [x]. *)
Definition runs_acc (acc : Z) (s : string) : option (list Z) :=
  match split_dot s with
  | x :: xs =>
      n ← LooseVersion.int_digits acc x;
      ns ← mapM LooseVersion.py_int xs;
      Some (n :: ns)
  | [] => None
  end.

Definition comps (l : list string) : list LooseVersion.component :=
  map LooseVersion.to_component (filter (λ x, LooseVersion.keep x = true) l).

(** Two records that agree on every key but [notes]. *)
Definition same_but_notes (a b : addon) : Prop :=
  a_type a = a_type b ∧ a_status a = a_status b ∧ a_name a = a_name b ∧
  a_version a = a_version b ∧ a_last_version a = a_last_version b ∧
  a_last_release_date a = a_last_release_date b ∧ a_link a = a_link b ∧
  a_altered a = a_altered b ∧ a_cve a = a_cve b ∧ a_vulns a = a_vulns b ∧
  a_alterations a = a_alterations b ∧ a_filename a = a_filename b ∧
  a_path a = a_path b ∧ a_mu a = a_mu b.

(** Two records that agree on every key but [cve]. *)
Definition same_but_cve (a b : addon) : Prop :=
  a_type a = a_type b ∧ a_status a = a_status b ∧ a_name a = a_name b ∧
  a_version a = a_version b ∧ a_last_version a = a_last_version b ∧
  a_last_release_date a = a_last_release_date b ∧ a_link a = a_link b ∧
  a_altered a = a_altered b ∧ a_notes a = a_notes b ∧ a_vulns a = a_vulns b ∧
  a_alterations a = a_alterations b ∧ a_filename a = a_filename b ∧
  a_path a = a_path b ∧ a_mu a = a_mu b.

(** The alert raised for an outdated addon (lines 155-164). *)
Definition is_outdated_alert (e : log_entry) : bool :=
  String.eqb (lg_type e) "alert" && String.eqb (lg_msg e) "Outdated, last version: ".

Definition outdated_signal (lg : list log_entry) : bool :=
  existsb is_outdated_alert lg.

(** ** The content hash and the tree comparison *)

(** The mapping from relative path to file content of a tree. *)
Definition path_content (e : file_entry) : string * string :=
  (f_path e, f_content e).

Definition tree_map (t : tree) : gmap string string :=
  list_to_map (path_content <$> t).

Definition by_path (e1 e2 : file_entry) : Prop :=
  String.le (f_path e1) (f_path e2).

Global Instance by_path_dec : RelDecision by_path.
Proof. intros e1 e2. unfold by_path. apply _. Defined.

Section Dirhash.
(** The digest of the bytes of one file, and the combination of the
    per-file results into one digest. *)
Variable file_digest : string → string.
Variable combine : list (string * string) → string.

(** Modelled from the spec: [checksumdir.dirhash] is an imported package and
    not part of the sources.  The hash is a function of the pairs (relative
    path, content bytes), taken in the order of the sorted paths and
    combined into a single digest; hashing the sorted concatenation of the
    per-file digests is one such [combine]. *)
Definition dirhash_model (t : tree) : string :=
  combine ((λ e, (f_path e, file_digest (f_content e))) <$> merge_sort by_path t).
End Dirhash.

(** The directories on the way to a file: the components of its relative
    path but the last. *)
Fixpoint path_dirs (p : string) : list string :=
  match p with
  | EmptyString => []
  | String c p' =>
      if Ascii.eqb c "/" then EmptyString :: path_dirs p'
      else match path_dirs p' with
           | d :: ds => String c d :: ds
           | [] => []
           end
  end.

Definition excluded (ignore : list string) (p : string) : bool :=
  existsb (λ d, bool_decide (d ∈ ignore)) (path_dirs p).

(** Modelled from the spec: [uCMS.diff_files] and the [dircmp] object it walks
    are not part of the sources.  The diff collects, in the lexical order of
    the paths, the relative path of every file that is present, absent or
    different in content outside the excluded sub-directories, and records
    them in [alterations]. *)
Definition diff_files_model (dcmp : dircmp) (alterations : list string)
    (target : string) : list string :=
  let l := tree_map (dc_left dcmp) in
  let r := tree_map (dc_right dcmp) in
  alterations ++
  filter (λ p, excluded (dc_ignore dcmp) p = false ∧ l !! p ≠ r !! p)
         (merge_sort String.le (elements (dom l ∪ dom r))).

(** ** A sample installation

    A site with two plugins, [foo] and [bar], used to run the definitions on
    concrete data. *)

Module Sample.

Definition self : WP :=
  {| dir_path := "/var/www"; wp_content := "wp-content";
     plugins_dir := "/var/www/wp-content/plugins";
     themes_dir := "/var/www/wp-content/themes";
     wpvulndb_token := "secret" |}.

Definition file (p c : string) (mtime : Z) : file_entry :=
  {| f_path := p; f_content := c; f_mtime := mtime; f_mode := 420 |}.

(** The installed plugin and the released one differ in a style sheet
    only. *)
Definition installed : tree :=
  [file "foo.php" "<?php" 1500; file "css/style.css" "a{}" 1500].

Definition reference : tree :=
  [file "css/style.css" "a { }" 7; file "foo.php" "<?php" 7].

(** The same files as [installed], listed in another order and with other
    time stamps and permissions. *)
Definition installed_copy : tree :=
  [ {| f_path := "css/style.css"; f_content := "a{}"; f_mtime := 9; f_mode := 384 |};
    {| f_path := "foo.php"; f_content := "<?php"; f_mtime := 9; f_mode := 384 |} ].

Definition vulns_foo : list vuln :=
  [ {| vuln_id := 1; vuln_title := "XSS"; vuln_type := "XSS";
       vuln_fixed_in := Some "3.5" |};
    {| vuln_id := 2; vuln_title := "SQLi"; vuln_type := "SQLI";
       vuln_fixed_in := Some "0.9" |};
    {| vuln_id := 3; vuln_title := "RCE"; vuln_type := "RCE";
       vuln_fixed_in := None |};
    {| vuln_id := 4; vuln_title := "CSRF"; vuln_type := "CSRF";
       vuln_fixed_in := Some "3.beta" |} ].

Definition answer (status : Z) (body : string) (js : gmap string (list vuln))
    (t : tree) : result response :=
  Ok {| status_code := status; text := body; json := js; content := t |}.

Definition get (url : string) (headers : list (string * string))
    : result response :=
  if String.eqb url "https://wordpress.org/plugins/foo/"
  then answer 200 "page" ∅ []
  else if String.eqb url "https://wpvulndb.com/api/v3/plugins/foo"
  then answer 200 "" {[ "foo" := vulns_foo ]} []
  else if String.eqb url "https://downloads.wordpress.org/plugin/foo.3.0.zip"
  then answer 200 "" ∅ reference
  else if String.eqb url "https://wpvulndb.com/api/v3/plugins/bar"
  then answer 204 "" ∅ []
  else if String.eqb url "https://wpvulndb.com/api/v3/wordpresses/49"
  then answer 200 "" {[ "4.9" := vulns_foo ]} []
  else if String.eqb url "https://wpvulndb.com/api/v3/wordpresses/50"
  then answer 204 "" ∅ []
  else answer 404 "" ∅ [].

Definition search (pattern page : string) : option string :=
  if String.eqb pattern regex_version_addon_web_plugin then Some "2.0"
  else if String.eqb pattern regex_date_last_release_plugin
  then Some "2019-03-02T10:00:00"
  else None.

Definition walk (path : string) : option (list string) :=
  if String.eqb path "/var/www" then Some ["wp-admin"; "wp-content"]
  else if String.eqb path "/var/www/wp-content"
  then Some ["plugins"; "themes"; "uploads"]
  else if String.eqb path "/var/www/wp-admin" then Some ["css"]
  else if String.eqb path "/srv/empty" then Some []
  else None.

Definition entry_text (p : string * string) : string := p.1 +:+ ":" +:+ p.2.

Definition hash : tree → string :=
  dirhash_model (λ c, c) (λ l, String.concat "|" (entry_text <$> l)).

Definition env : Env :=
  {| requests_get := get;
     re_search := search;
     get_poc := λ _, false;
     fetch_addons := λ _ key, if String.eqb key "standard" then ["foo"; "bar"] else [];
     get_addon_version := λ a _ _ _, returned (set_version "3.0" a) [] "3.0" None;
     isfile := λ _, true;
     walk_dirs := walk;
     extractall := λ _ _, Ok tt;
     isdir := λ _, true;
     read_tree := λ _, installed;
     dirhash := hash;
     diff_files := diff_files_model;
     temp_directory := "/tmp/comission" |}.

(** The same site with the network down. *)
Definition offline : Env :=
  {| requests_get := λ _ _, Raise ConnectionError;
     re_search := search;
     get_poc := λ _, false;
     fetch_addons := λ _ key, if String.eqb key "standard" then ["foo"; "bar"] else [];
     get_addon_version := λ a _ _ _, returned (set_version "3.0" a) [] "3.0" None;
     isfile := λ _, true;
     walk_dirs := walk;
     extractall := λ _ _, Ok tt;
     isdir := λ _, true;
     read_tree := λ _, installed;
     dirhash := hash;
     diff_files := diff_files_model;
     temp_directory := "/tmp/comission" |}.

(** The same site when what the download site sends is no archive. *)
Definition corrupt : Env :=
  {| requests_get := get;
     re_search := search;
     get_poc := λ _, false;
     fetch_addons := λ _ key, if String.eqb key "standard" then ["foo"; "bar"] else [];
     get_addon_version := λ a _ _ _, returned (set_version "3.0" a) [] "3.0" None;
     isfile := λ _, true;
     walk_dirs := walk;
     extractall := λ _ _, Raise BadZipFile;
     isdir := λ _, true;
     read_tree := λ _, installed;
     dirhash := hash;
     diff_files := diff_files_model;
     temp_directory := "/tmp/comission" |}.

Definition foo : addon := set_version "3.0" (new_addon "plugins" "foo" (Some "NO")).
Definition bar : addon := set_version "3.0" (new_addon "plugins" "bar" (Some "NO")).
Definition baz : addon := set_version "3.0" (new_addon "plugins" "baz" (Some "NO")).

End Sample.

(** ** Conditions on the surroundings *)

(** Every request gets a response: the transport raises nothing. *)
Definition transport_answers `{Env} : Prop :=
  ∀ url headers, ∃ r, requests_get url headers = Ok r.

(** A 200 answer of the vulnerability database for one of the given addons
    holds an entry under the name of the addon. *)
Definition vulndb_keyed `{Env} (self : WP) (names : list string) : Prop :=
  ∀ name r, name ∈ names →
    requests_get (cve_ref_url +:+ "plugins/" +:+ name) (auth_headers self) = Ok r →
    status_code r = 200 → is_Some (json r !! name).

(** [get_addon_version] returns, and leaves the keys [name] and [type] of the
    record alone. *)
Definition version_stage_returns `{Env} : Prop :=
  ∀ a addon_path regexp to_strip,
    ∃ o, get_addon_version a addon_path regexp to_strip = Ok o ∧
         a_name (out_addon o) = a_name a ∧ a_type (out_addon o) = a_type a.

(** The order of the pairs (path, content) by their path. *)
Definition key_le (p q : string * string) : Prop := String.le p.1 q.1.

(** A sub-directory that holds both [plugins] and [themes]. *)
Definition is_wp_content `{Env} (dir_path dirname : string) : Prop :=
  ∃ sub, walk_dirs (path_join dir_path [dirname]) = Some sub ∧
         "plugins" ∈ sub ∧ "themes" ∈ sub.

Module SampleUnkeyed.
(** A vulnerability database that answers 200 with an empty object. *)
Definition env : Env :=
  {| requests_get := λ _ _, Sample.answer 200 "page" ∅ [];
     re_search := Sample.search;
     get_poc := λ _, false;
     fetch_addons := λ _ key, if String.eqb key "standard" then ["foo"; "bar"] else [];
     get_addon_version := λ a _ _ _, returned (set_version "3.0" a) [] "3.0" None;
     isfile := λ _, true;
     walk_dirs := Sample.walk;
     extractall := λ _ _, Ok tt;
     isdir := λ _, true;
     read_tree := λ _, Sample.installed;
     dirhash := Sample.hash;
     diff_files := diff_files_model;
     temp_directory := "/tmp/comission" |}.
End SampleUnkeyed.

(** ** The remaining methods of [WP] *)

(** *** [get_url_release] (lines 114-115) and [get_archive_name] (lines 354-355) *)

Definition get_url_release : string := release_site.

Definition get_archive_name : string := "wordpress".

(** *** [extract_core_last_version] (lines 117-123)

    [page_json] is the decoded body of the response of the update-check
    endpoint, an object whose key [offers] holds a list of objects; [infos] is
    the dictionary [core_details["infos"]], of which the method sets the key
    [last_version].  The result is the returned version, the dictionary after
    the call and the line logged. *)
Definition extract_core_last_version
    (page_json : gmap string (list (gmap string string)))
    (infos : gmap string string)
    : result (string * gmap string string * list log_entry) :=
  offers ← from_option (KeyError "offers") (page_json !! "offers");
  offer ← from_option IndexError ((offers : list (gmap string string)) !! 0%nat);
  last_version_core ←
    from_option (KeyError "version") ((offer : gmap string string) !! "version");
  let last_version_core := (last_version_core : string) in
  Ok (last_version_core,
      <["last_version" := last_version_core]> infos,
      [print_cms "info" ("[+] Last CMS version: " +:+ last_version_core) "" 0]).

(** ** Further predicates used to state the properties *)

(** Two records that agree on every key but [vulns]. *)
Definition same_but_vulns (a b : addon) : Prop :=
  a_type a = a_type b ∧ a_status a = a_status b ∧ a_name a = a_name b ∧
  a_version a = a_version b ∧ a_last_version a = a_last_version b ∧
  a_last_release_date a = a_last_release_date b ∧ a_link a = a_link b ∧
  a_altered a = a_altered b ∧ a_cve a = a_cve b ∧ a_notes a = a_notes b ∧
  a_alterations a = a_alterations b ∧ a_filename a = a_filename b ∧
  a_path a = a_path b ∧ a_mu a = a_mu b.

(** Two records that agree on every key but [altered] and [alterations]. *)
Definition same_but_alteration (a b : addon) : Prop :=
  a_type a = a_type b ∧ a_status a = a_status b ∧ a_name a = a_name b ∧
  a_version a = a_version b ∧ a_last_version a = a_last_version b ∧
  a_last_release_date a = a_last_release_date b ∧ a_link a = a_link b ∧
  a_cve a = a_cve b ∧ a_vulns a = a_vulns b ∧ a_notes a = a_notes b ∧
  a_filename a = a_filename b ∧ a_path a = a_path b ∧ a_mu a = a_mu b.

(** Two records that agree on every key but [last_version],
    [last_release_date] and [link]. *)
Definition same_but_release (a b : addon) : Prop :=
  a_type a = a_type b ∧ a_status a = a_status b ∧ a_name a = a_name b ∧
  a_version a = a_version b ∧ a_altered a = a_altered b ∧ a_cve a = a_cve b ∧
  a_vulns a = a_vulns b ∧ a_notes a = a_notes b ∧
  a_alterations a = a_alterations b ∧ a_filename a = a_filename b ∧
  a_path a = a_path b ∧ a_mu a = a_mu b.

(** Two records that agree on every key but [filename]. *)
Definition same_but_filename (a b : addon) : Prop :=
  a_type a = a_type b ∧ a_status a = a_status b ∧ a_name a = a_name b ∧
  a_version a = a_version b ∧ a_last_version a = a_last_version b ∧
  a_last_release_date a = a_last_release_date b ∧ a_link a = a_link b ∧
  a_altered a = a_altered b ∧ a_cve a = a_cve b ∧ a_vulns a = a_vulns b ∧
  a_notes a = a_notes b ∧ a_alterations a = a_alterations b ∧
  a_path a = a_path b ∧ a_mu a = a_mu b.

(** What one entry of the vulnerability database adds to the list of an addon
    installed in version [installed]: the entry under its title when the
    installed version is below the fixed-in version, the entry marked for a
    manual check when the two cannot be compared, nothing otherwise. *)
Definition reported `{Env} (installed : string) (v : vuln) : list vuln_details :=
  match LooseVersion.lt (LooseVersion.make (Some installed))
                        (LooseVersion.make (vuln_fixed_in v)) with
  | Ok true => [addon_vuln_details (vuln_title v) v]
  | Ok false => []
  | Raise _ => [addon_vuln_details (" To check : " +:+ vuln_title v) v]
  end.

(** The proof-of-concept flag of a record agrees with what [get_poc] answers
    for its link. *)
Definition poc_checked `{Env} (d : vuln_details) : Prop :=
  (vd_poc d = "YES" ∧ get_poc (vd_link d) = true) ∨
  (vd_poc d = "CHECK" ∧ get_poc (vd_link d) = false).

(** The path and the record with which the stages of an addon start in
    [addon_analysis] (lines 387-415): the record as created, with its [mu] key
    and its main file. *)
Definition first_path (addon_type key addons_path addon_name : string) : string :=
  if String.eqb addon_type "plugins" && String.eqb key "mu"
  then addons_path
  else path_join addons_path [addon_name].

Definition first_record `{Env} (addon_type key addons_path addon_name : string)
    : addon :=
  get_addon_main_file
    (new_addon addon_type addon_name
       (if String.eqb addon_type "plugins"
        then Some (if String.eqb key "mu" then "YES" else "NO")
        else None))
    (first_path addon_type key addons_path addon_name).

(** The addons [addon_analysis] works through, in the order of discovery:
    the key and the directory of the list an addon is found in, and its
    name. *)
Definition worklist `{Env} (self : WP) (addon_type : string)
    : list (string * string * string) :=
  flat_map (λ kp : string * string,
              (λ addon_name, (kp.1, kp.2, addon_name)) <$> fetch_addons kp.2 kp.1)
           (addons_paths_of self addon_type).

(** An archive fetched with status 200 for one of the addons at work unpacks,
    and the directory of the addon and the reference directory are there to
    be hashed. *)
Definition archives_unpack `{Env} (self : WP) (addon_type : string) : Prop :=
  ∀ key addons_path addon_name a r,
    (key, addons_path, addon_name) ∈ worklist self addon_type →
    a_name a = addon_name →
    requests_get (addon_url_of a) [] = Ok r →
    status_code r = 200 →
    extractall r temp_directory = Ok tt ∧
    isdir (first_path addon_type key addons_path addon_name) = true ∧
    isdir (path_join temp_directory [addon_name]) = true.

(** The record of an addon when its stages end, [a] being the record they
    start with: each stage runs on the record the stage before it left, a
    stage that reports an error is the last one to run, and the record is as
    the last stage that ran left it. *)
Inductive terminal `{Env} (self : WP) (addon_path temp_directory : string)
    (a : addon) : addon → Prop :=
  | ends_at_version (o1 : stage_out string) :
      get_addon_version a addon_path regex_version_addon " " = Ok o1 →
      out_err o1 ≠ None →
      terminal self addon_path temp_directory a (out_addon o1)
  | ends_at_last_version (o1 o2 : stage_out string) :
      get_addon_version a addon_path regex_version_addon " " = Ok o1 →
      out_err o1 = None →
      get_addon_last_version (out_addon o1) = Ok o2 →
      out_err o2 ≠ None →
      terminal self addon_path temp_directory a (out_addon o2)
  | ends_at_vulns (o1 o2 : stage_out string) (o3 : stage_out (str_or vuln)) :
      get_addon_version a addon_path regex_version_addon " " = Ok o1 →
      out_err o1 = None →
      get_addon_last_version (out_addon o1) = Ok o2 →
      out_err o2 = None →
      check_vulns_addon self (out_addon o2) = Ok o3 →
      out_err o3 ≠ None →
      terminal self addon_path temp_directory a (out_addon o3)
  | ends_at_alteration (o1 o2 : stage_out string) (o3 : stage_out (str_or vuln))
      (o4 : stage_out string) :
      get_addon_version a addon_path regex_version_addon " " = Ok o1 →
      out_err o1 = None →
      get_addon_last_version (out_addon o1) = Ok o2 →
      out_err o2 = None →
      check_vulns_addon self (out_addon o2) = Ok o3 →
      out_err o3 = None →
      check_addon_alteration (out_addon o3) addon_path temp_directory = Ok o4 →
      terminal self addon_path temp_directory a (out_addon o4).

(** The record appended for the addon found under [job]. *)
Definition terminal_of `{Env} (self : WP) (addon_type : string)
    (job : string * string * string) (a : addon) : Prop :=
  terminal self (first_path addon_type job.1.1 job.1.2 job.2) temp_directory
    (first_record addon_type job.1.1 job.1.2 job.2) a.

(** A sub-directory that can be listed and holds both [plugins] and
    [themes]. *)
Definition holds_both `{Env} (dir_path dirname : string) : bool :=
  match walk_dirs (path_join dir_path [dirname]) with
  | Some sub => issubset ["plugins"; "themes"] sub
  | None => false
  end.

(** The value of a string: something that is not false in a condition. *)
Definition truthy (v : option string) : bool :=
  match v with
  | None | Some EmptyString => false
  | Some _ => true
  end.

Module SampleStages.

(** A site whose plugin [qux] is listed on the official site and unknown to
    the vulnerability database, and whose plugin [old] has no readable main
    file; the network is the one of [Sample] extended with the listing of
    [qux]. *)
Definition get (url : string) (headers : list (string * string))
    : result response :=
  if String.eqb url "https://wordpress.org/plugins/qux/"
  then Sample.answer 200 "page" ∅ []
  else if String.eqb url "https://wordpress.org/plugins/odd/"
  then Sample.answer 204 "" ∅ []
  else if String.eqb url "https://downloads.wordpress.org/plugin/odd.3.0.zip"
  then Sample.answer 204 "" ∅ []
  else if String.eqb url "https://wordpress.org/gadgets/foo/"
  then Sample.answer 200 "page" ∅ []
  else if String.eqb url "https://wpvulndb.com/api/v3/wordpresses/52"
  then Sample.answer 200 "" {[ "52" := Sample.vulns_foo ]} []
  else Sample.get url headers.

Definition version_stage (a : addon) (addon_path regexp to_strip : string)
    : result (stage_out string) :=
  if String.eqb (a_name a) "old"
  then returned (set_notes "No standard extension file. Search manually !" a)
                [] "" (Some FileNotFoundError)
  else returned (set_version "3.0" a) [] "3.0" None.

Definition only_version (pattern page : string) : option string :=
  if String.eqb pattern regex_version_addon_web_plugin then Some "2.0" else None.

Definition build (get : string → list (string * string) → result response)
    (search : string → string → option string)
    (poc : string → bool) (exists_file : string → bool) : Env :=
  {| requests_get := get;
     re_search := search;
     get_poc := poc;
     fetch_addons := λ _ key,
       if String.eqb key "standard" then ["qux"; "old"] else ["must"];
     get_addon_version := version_stage;
     isfile := exists_file;
     walk_dirs := Sample.walk;
     extractall := λ _ _, Ok tt;
     isdir := λ _, true;
     read_tree := λ _, Sample.installed;
     dirhash := Sample.hash;
     diff_files := diff_files_model;
     temp_directory := "/tmp/comission" |}.

Definition env : Env := build get Sample.search (λ _, false) (λ _, true).

(** The same site with the network down. *)
Definition offline : Env :=
  build (λ _ _, Raise ConnectionError) Sample.search (λ _, false) (λ _, true).

(** The same site when the listing pages show a version and no date. *)
Definition undated : Env := build get only_version (λ _, false) (λ _, true).

(** The same site when a proof of concept is known for the entry 3 only. *)
Definition with_poc : Env :=
  build get Sample.search
    (λ url, String.eqb url "https://wpvulndb.com/vulnerabilities/3") (λ _, true).

(** The same site when no plugin has a file named after it. *)
Definition unnamed : Env :=
  build get Sample.search (λ _, false)
    (λ path, String.eqb path "/plugins/qux/plugin.php").

(** A vulnerability database that knows the first two sample entries for
    every plugin. *)
Definition patched : Env :=
  build (λ _ _, Sample.answer 200 "" {[ "foo" := take 2 Sample.vulns_foo ]} [])
        Sample.search (λ _, false) (λ _, true).

Definition qux : addon := set_version "3.0" (new_addon "plugins" "qux" (Some "NO")).
Definition odd : addon := set_version "3.0" (new_addon "plugins" "odd" (Some "NO")).
Definition gadget : addon := set_version "3.0" (new_addon "gadgets" "foo" None).
Definition unversioned : addon := new_addon "plugins" "foo" (Some "NO").

End SampleStages.

(** * Properties *)

(** ** Version comparison *)

Example re_split_1_2 :
  LooseVersion.re_split "1.2" = [""; "1"; ""; "."; ""; "2"; ""].
Proof. reflexivity. Qed.

Example parse_mixed :
  LooseVersion.parse "1.5.2b2" =
  [LooseVersion.CInt 1; LooseVersion.CInt 5; LooseVersion.CInt 2;
   LooseVersion.CStr "b"; LooseVersion.CInt 2].
Proof. reflexivity. Qed.

Example lt_mixed_raises :
  LooseVersion.lt (LooseVersion.make (Some "1.0")) (LooseVersion.make (Some "1.beta"))
  = Raise TypeError.
Proof. reflexivity. Qed.

Example lt_missing_raises :
  LooseVersion.lt (LooseVersion.make (Some "1.0")) (LooseVersion.make None)
  = Raise AttributeError.
Proof. reflexivity. Qed.

Section VersionFacts.
Import LooseVersion.

Lemma digit_value_classify c d : digit_value c = Some d → classify c = Digit.
Proof.
  unfold digit_value, classify.
  destruct ((48 <=? N_of_ascii c)%N && (N_of_ascii c <=? 57)%N); [done|discriminate].
Qed.

Lemma digit_value_not_dot c d : digit_value c = Some d → Ascii.eqb c "." = false.
Proof.
  intros Hd. destruct (Ascii.eqb_spec c ".") as [->|]; [|done].
  vm_compute in Hd. discriminate.
Qed.

Lemma classify_dot c : Ascii.eqb c "." = true → classify c = Dot.
Proof. intros ->%Ascii.eqb_eq. reflexivity. Qed.

Lemma int_digits_snoc r : ∀ a acc c d,
  int_digits a r = Some acc → digit_value c = Some d →
  int_digits a (snoc r c) = Some (10 * acc + d).
Proof.
  induction r as [|x r IH]; intros a acc c d Hr Hc; simpl in *.
  - injection Hr as <-. by rewrite Hc.
  - destruct (digit_value x); [|discriminate]. eauto.
Qed.

Lemma snoc_nonempty r c : snoc r c ≠ EmptyString.
Proof. by destruct r. Qed.

Lemma split_dot_nonempty s : split_dot s ≠ [].
Proof.
  destruct s as [|c s]; simpl; [done|].
  destruct (Ascii.eqb c "."); [done|]. by destruct (split_dot s).
Qed.

Lemma numeric_runs_empty : numeric_runs "" = None.
Proof. reflexivity. Qed.

Lemma runs_acc_empty acc : runs_acc acc "" = Some [acc].
Proof. reflexivity. Qed.

(** Reading one more character in front of a run. *)
Lemma numeric_runs_cons c s :
  numeric_runs (String c s) =
  match digit_value c with
  | Some d => runs_acc d s
  | None => None
  end.
Proof.
  unfold numeric_runs, runs_acc. simpl.
  destruct (digit_value c) as [d|] eqn:Hd.
  - rewrite (digit_value_not_dot _ _ Hd).
    pose proof (split_dot_nonempty s) as Hne.
    destruct (split_dot s) as [|x xs]; [done|].
    cbn. unfold py_int; simpl. rewrite Hd.
    replace (10 * 0 + d) with d by lia. reflexivity.
  - destruct (Ascii.eqb c "."); [reflexivity|].
    pose proof (split_dot_nonempty s) as Hne.
    destruct (split_dot s) as [|x xs]; [done|].
    cbn. unfold py_int; simpl. by rewrite Hd.
Qed.

Lemma runs_acc_cons acc c s :
  runs_acc acc (String c s) =
  if Ascii.eqb c "." then ns ← numeric_runs s; Some (acc :: ns)
  else match digit_value c with
       | Some d => runs_acc (10 * acc + d) s
       | None => None
       end.
Proof.
  unfold numeric_runs, runs_acc. simpl.
  destruct (Ascii.eqb c "."); [reflexivity|].
  pose proof (split_dot_nonempty s) as Hne.
  destruct (split_dot s) as [|x xs]; [done|].
  simpl. by destruct (digit_value c).
Qed.

Lemma comps_keep x l :
  keep x = true → comps (x :: l) = to_component x :: comps l.
Proof.
  intros Hk. unfold comps. rewrite filter_cons. by rewrite decide_True.
Qed.

Lemma comps_drop x l : keep x = false → comps (x :: l) = comps l.
Proof.
  intros Hk. unfold comps. rewrite filter_cons.
  rewrite decide_False; [done|]. by rewrite Hk.
Qed.

(** A non-empty run of digits is kept and read as its number. *)
Lemma digits_component r acc l :
  r ≠ EmptyString → int_digits 0 r = Some acc →
  comps (r :: l) = CInt acc :: comps l.
Proof.
  intros Hne Hr. rewrite comps_keep.
  - unfold to_component, py_int. destruct r; [done|]. by rewrite Hr.
  - unfold keep. destruct (String.eqb_spec r "") as [->|_]; [done|].
    destruct (String.eqb_spec r ".") as [->|_]; [|done].
    vm_compute in Hr. discriminate.
Qed.

(** The scanner of [re_split], read on a dotted-numeric string: inside a run
    of digits and at the start of a piece. *)
Lemma split_go_numeric s :
  (∀ acc r rs, r ≠ EmptyString → int_digits 0 r = Some acc →
     runs_acc acc s = Some rs →
     comps (split_go (InRun Digit r) s) = CInt <$> rs) ∧
  (∀ rs, numeric_runs s = Some rs →
     comps (split_go (InPiece "") s) = CInt <$> rs).
Proof.
  induction s as [|c s [IHrun IHpiece]]; split.
  - intros acc r rs Hne Hr Hs. rewrite runs_acc_empty in Hs.
    injection Hs as <-. simpl.
    rewrite (digits_component _ acc) by done. by rewrite comps_drop.
  - intros rs Hs. by rewrite numeric_runs_empty in Hs.
  - intros acc r rs Hne Hr Hs. rewrite runs_acc_cons in Hs. simpl.
    destruct (Ascii.eqb c ".") eqn:Hdot.
    + rewrite (classify_dot _ Hdot). simpl.
      unfold enter. rewrite (classify_dot _ Hdot). simpl.
      destruct (numeric_runs s) as [ns|] eqn:Hns; [|discriminate].
      injection Hs as <-.
      rewrite (digits_component _ acc) by done.
      rewrite comps_drop by done. rewrite comps_drop by done.
      simpl. f_equal. by apply IHpiece.
    + destruct (digit_value c) as [d|] eqn:Hd; [|discriminate].
      rewrite (digit_value_classify _ _ Hd). simpl.
      eapply IHrun; [apply snoc_nonempty| |exact Hs].
      by apply int_digits_snoc.
  - intros rs Hs. rewrite numeric_runs_cons in Hs. simpl.
    destruct (digit_value c) as [d|] eqn:Hd; [|discriminate].
    unfold enter. rewrite (digit_value_classify _ _ Hd). simpl.
    rewrite comps_drop by done.
    eapply IHrun; [done| |exact Hs].
    simpl. rewrite Hd. f_equal; lia.
Qed.

Lemma parse_numeric s rs : numeric_runs s = Some rs → parse s = CInt <$> rs.
Proof. intros Hs. by apply (split_go_numeric s). Qed.

Lemma make_numeric s rs :
  numeric_runs s = Some rs →
  make (Some s) = {| vstring := Some s; version := Some (CInt <$> rs) |}.
Proof.
  intros Hs. destruct s as [|c s]; [by rewrite numeric_runs_empty in Hs|].
  unfold make. by rewrite (parse_numeric _ _ Hs).
Qed.

Lemma list_eqb_ints a : ∀ b,
  list_eqb (CInt <$> a) (CInt <$> b) =
  match lex_compare a b with Eq => true | _ => false end.
Proof.
  induction a as [|x a IH]; intros [|y b]; simpl; try done.
  rewrite IH. destruct (Z.compare_spec x y) as [->|Hlt|Hgt].
  - by rewrite Z.eqb_refl.
  - replace (x =? y) with false by (symmetry; apply Z.eqb_neq; lia). done.
  - replace (x =? y) with false by (symmetry; apply Z.eqb_neq; lia). done.
Qed.

Lemma list_lt_ints a : ∀ b,
  list_lt (CInt <$> a) (CInt <$> b) = Ok (is_Lt (lex_compare a b)).
Proof.
  induction a as [|x a IH]; intros [|y b]; simpl; try done.
  destruct (Z.compare_spec x y) as [->|Hlt|Hgt].
  - rewrite Z.eqb_refl. apply IH.
  - replace (x =? y) with false by (symmetry; apply Z.eqb_neq; lia).
    simpl. f_equal. apply Z.ltb_lt. lia.
  - replace (x =? y) with false by (symmetry; apply Z.eqb_neq; lia).
    simpl. f_equal. apply Z.ltb_ge. lia.
Qed.

Lemma list_gt_ints a : ∀ b,
  list_gt (CInt <$> a) (CInt <$> b) =
  Ok (match lex_compare a b with Gt => true | _ => false end).
Proof.
  induction a as [|x a IH]; intros [|y b]; simpl; try done.
  destruct (Z.compare_spec x y) as [->|Hlt|Hgt].
  - rewrite Z.eqb_refl. apply IH.
  - replace (x =? y) with false by (symmetry; apply Z.eqb_neq; lia).
    simpl. f_equal. apply Z.ltb_ge. lia.
  - replace (x =? y) with false by (symmetry; apply Z.eqb_neq; lia).
    simpl. f_equal. apply Z.ltb_lt. lia.
Qed.

Lemma cmp_numeric a b ra rb :
  numeric_runs a = Some ra → numeric_runs b = Some rb →
  _cmp (make (Some a)) (make (Some b)) =
  Ok (Some (Z_of_comparison (lex_compare ra rb))).
Proof.
  intros Ha Hb. rewrite (make_numeric _ _ Ha), (make_numeric _ _ Hb).
  unfold _cmp, get_version. cbn.
  rewrite list_eqb_ints, list_lt_ints, list_gt_ints.
  by destruct (lex_compare ra rb).
Qed.

(** Whatever the two strings, the comparison raises nothing but
    [TypeError] and [AttributeError]. *)
Lemma component_lt_raises x y e : component_lt x y = Raise e → e = TypeError.
Proof. destruct x, y; simpl; congruence. Qed.

Lemma component_gt_raises x y e : component_gt x y = Raise e → e = TypeError.
Proof. destruct x, y; simpl; congruence. Qed.

Lemma list_lt_raises a : ∀ b e, list_lt a b = Raise e → e = TypeError.
Proof.
  induction a as [|x a IH]; intros [|y b] e; simpl; try done.
  destruct (component_eqb x y); eauto using component_lt_raises.
Qed.

Lemma list_gt_raises a : ∀ b e, list_gt a b = Raise e → e = TypeError.
Proof.
  induction a as [|x a IH]; intros [|y b] e; simpl; try done.
  destruct (component_eqb x y); eauto using component_gt_raises.
Qed.

Lemma lt_raises v w e :
  lt v w = Raise e → e = TypeError ∨ e = AttributeError.
Proof.
  unfold lt, _cmp, get_version.
  destruct (version v) as [a|]; cbn; [|intros [= <-]; by right].
  destruct (version w) as [b|]; cbn; [|intros [= <-]; by right].
  destruct (list_eqb a b); cbn; [done|].
  destruct (list_lt a b) as [[]|e1] eqn:Hlt; cbn; [done| |].
  - destruct (list_gt a b) as [[]|e2] eqn:Hgt; cbn; [done| |].
    + intros [= <-]; by left.
    + intros [= <-]. left. by eapply list_gt_raises.
  - intros [= <-]. left. by eapply list_lt_raises.
Qed.

End VersionFacts.

(** C1, as amended.  For two well-formed dotted-numeric version strings the
    comparison of line 308 reads both as the sequences of the numbers between
    their dots and compares these from left to right; when one sequence is a
    proper prefix of the other the shorter one is the smaller (nothing is
    padded with zeros).  [_cmp] gives the sign of that comparison and [<]
    holds exactly when it is [Lt]. *)
Theorem LooseVersion_dotted_numeric_order (a b : string) (ra rb : list Z) :
  numeric_runs a = Some ra →
  numeric_runs b = Some rb →
  LooseVersion._cmp (LooseVersion.make (Some a)) (LooseVersion.make (Some b))
    = Ok (Some (Z_of_comparison (lex_compare ra rb))) ∧
  LooseVersion.lt (LooseVersion.make (Some a)) (LooseVersion.make (Some b))
    = Ok (is_Lt (lex_compare ra rb)) ∧
  (∀ y rest, rb = ra ++ y :: rest →
     LooseVersion.lt (LooseVersion.make (Some a)) (LooseVersion.make (Some b))
       = Ok true).
Proof.
  intros Ha Hb.
  assert (LooseVersion.lt (LooseVersion.make (Some a)) (LooseVersion.make (Some b))
          = Ok (is_Lt (lex_compare ra rb))) as Hlt.
  { unfold LooseVersion.lt. rewrite (cmp_numeric _ _ _ _ Ha Hb). cbn.
    by destruct (lex_compare ra rb). }
  split; [by apply cmp_numeric|]. split; [exact Hlt|].
  intros y rest ->. rewrite Hlt. f_equal. clear.
  induction ra as [|x ra IH]; simpl; [done|]. by rewrite Z.compare_refl.
Qed.

(** "1.2" < "1.10", and "1.2" < "1.2.0". *)
Lemma LooseVersion_dotted_numeric_order_witness :
  LooseVersion.lt (LooseVersion.make (Some "1.2")) (LooseVersion.make (Some "1.10"))
    = Ok true ∧
  LooseVersion.lt (LooseVersion.make (Some "1.2")) (LooseVersion.make (Some "1.2.0"))
    = Ok true.
Proof.
  split.
  - exact (proj1 (proj2 (LooseVersion_dotted_numeric_order
             "1.2" "1.10" [1; 2] [1; 10] eq_refl eq_refl))).
  - exact (proj2 (proj2 (LooseVersion_dotted_numeric_order
             "1.2" "1.2.0" [1; 2] [1; 2; 0] eq_refl eq_refl)) 0 [] eq_refl).
Defined.

(** C1, as stated, fails: with zero padding "1.2.0" and "1.2" would be equal,
    but the comparison of the code puts "1.2" strictly below "1.2.0". *)
Lemma LooseVersion_no_zero_padding :
  numeric_runs "1.2.0" = Some [1; 2; 0] ∧
  numeric_runs "1.2" = Some [1; 2] ∧
  padded_compare [1; 2; 0] [1; 2] = Eq ∧
  LooseVersion._cmp (LooseVersion.make (Some "1.2.0")) (LooseVersion.make (Some "1.2"))
    = Ok (Some 1) ∧
  LooseVersion.lt (LooseVersion.make (Some "1.2")) (LooseVersion.make (Some "1.2.0"))
    = Ok true.
Proof. repeat split; reflexivity. Qed.

(** ** The stages *)

Ltac unfold_result :=
  unfold mbind, result_bind, rbind, returned, from_option, raise_for_status in *.

Lemma not_error_200 : is_http_error 200 = false.
Proof. reflexivity. Qed.

Section StageFacts.
Context `{Env}.
Variable self : WP.

(** *** Latest version *)

Lemma get_addon_last_version_error a r :
  requests_get (releases_url_of a) [] = Ok r →
  is_http_error (status_code r) = true →
  get_addon_last_version a =
  returned (set_notes "Addon not on official site. Search manually !" a)
    [print_cms "alert" "[-] Addon not on official site. Search manually !" "" 1]
    "" (Some (HTTPError (status_code r))).
Proof.
  intros Hget Herr. unfold get_addon_last_version. rewrite Hget.
  unfold_result. by rewrite Herr.
Qed.

(** The stage reports an error only for an error status. *)
Lemma get_addon_last_version_failed a o :
  get_addon_last_version a = Ok o → out_err o ≠ None →
  out_addon o = set_notes "Addon not on official site. Search manually !" a.
Proof.
  unfold get_addon_last_version. unfold_result.
  destruct (requests_get _ _) as [r|e]; [|done].
  destruct (is_http_error (status_code r)).
  { by intros [= <-]. }
  destruct (status_code r =? 200); [|by intros [= <-]].
  destruct (web_regexps (a_type a)) as [[vre dre]|]; [|done].
  destruct (re_search vre (text r)), (re_search dre (text r));
    by intros [= <-].
Qed.

Lemma get_addon_last_version_fields a o :
  get_addon_last_version a = Ok o →
  a_name (out_addon o) = a_name a ∧ a_type (out_addon o) = a_type a.
Proof.
  unfold get_addon_last_version. unfold_result.
  destruct (requests_get _ _) as [r|e]; [|done].
  destruct (is_http_error (status_code r)).
  { by intros [= <-]. }
  destruct (status_code r =? 200); [|by intros [= <-]].
  destruct (web_regexps (a_type a)) as [[vre dre]|]; [|done].
  destruct (re_search vre (text r)), (re_search dre (text r));
    by intros [= <-].
Qed.

Lemma get_addon_last_version_returns a r :
  requests_get (releases_url_of a) [] = Ok r →
  is_Some (web_regexps (a_type a)) →
  ∃ o, get_addon_last_version a = Ok o.
Proof.
  intros Hget [[vre dre] Hre]. unfold get_addon_last_version.
  rewrite Hget, Hre. unfold_result.
  destruct (is_http_error (status_code r)); [by eexists|].
  destruct (status_code r =? 200); [|by eexists].
  destruct (re_search vre (text r)), (re_search dre (text r)); by eexists.
Qed.

(** *** Alteration *)

Lemma check_addon_alteration_failed a addon_path tmp o :
  check_addon_alteration a addon_path tmp = Ok o → out_err o ≠ None →
  out_addon o = set_notes "The download link is not standard. Search manually !" a.
Proof.
  unfold check_addon_alteration, dirhash_at. unfold_result.
  destruct (requests_get _ _) as [r|e]; [|done].
  destruct (is_http_error (status_code r)).
  { by intros [= <-]. }
  destruct (status_code r =? 200); [|by intros [= <-]].
  destruct (extractall r tmp) as [[]|e]; [|done].
  destruct (isdir addon_path); [|done].
  destruct (isdir (path_join tmp [a_name a])); [|done].
  destruct (String.eqb _ _); by intros [= <-].
Qed.

Lemma check_addon_alteration_fields a addon_path tmp o :
  check_addon_alteration a addon_path tmp = Ok o →
  a_name (out_addon o) = a_name a ∧ a_type (out_addon o) = a_type a.
Proof.
  unfold check_addon_alteration, dirhash_at. unfold_result.
  destruct (requests_get _ _) as [r|e]; [|done].
  destruct (is_http_error (status_code r)).
  { by intros [= <-]. }
  destruct (status_code r =? 200); [|by intros [= <-]].
  destruct (extractall r tmp) as [[]|e]; [|done].
  destruct (isdir addon_path); [|done].
  destruct (isdir (path_join tmp [a_name a])); [|done].
  destruct (String.eqb _ _); by intros [= <-].
Qed.

(** On a 200 answer the stage returns when the archive unpacks and both
    directories are there. *)
Lemma check_addon_alteration_200 a addon_path tmp r :
  requests_get (addon_url_of a) [] = Ok r →
  status_code r = 200 →
  extractall r tmp = Ok tt →
  isdir addon_path = true →
  isdir (path_join tmp [a_name a]) = true →
  check_addon_alteration a addon_path tmp =
  let ref_dir := path_join tmp [a_name a] in
  let lg0 :=
    [print_cms "default" ("To download the addon: " +:+ addon_url_of a) "" 1] in
  let msg := "[+] For further analysis, archive downloaded here : " +:+ ref_dir in
  if String.eqb (dirhash (read_tree addon_path)) (dirhash (content r))
  then returned (set_altered "NO" a)
         (lg0 ++ [print_cms "good" ("Different from sources : " +:+ "NO") "" 1]
              ++ [print_cms "info" msg "" 1]) "NO" None
  else returned
         (set_altered "YES"
            (set_alterations
               (diff_files (dcmp_of addon_path r) (a_alterations a) addon_path) a))
         (lg0 ++ [print_cms "alert" ("Different from sources : " +:+ "YES") "" 1]
              ++ [print_cms "info" msg "" 1]) "YES" None.
Proof.
  intros Hget H200 Hzip Hdir Href.
  unfold check_addon_alteration, dirhash_at. rewrite Hget. unfold_result.
  rewrite H200, not_error_200. change (200 =? 200) with true. cbv beta iota.
  rewrite Hzip. cbv beta iota. rewrite Hdir. cbv beta iota.
  rewrite Href. cbv beta iota zeta.
  by destruct (String.eqb _ _).
Qed.

Lemma check_addon_alteration_returns a addon_path tmp r :
  requests_get (addon_url_of a) [] = Ok r →
  (status_code r = 200 →
     extractall r tmp = Ok tt ∧ isdir addon_path = true ∧
     isdir (path_join tmp [a_name a]) = true) →
  ∃ o, check_addon_alteration a addon_path tmp = Ok o.
Proof.
  intros Hget Hzip.
  destruct (Z.eqb_spec (status_code r) 200) as [H200|Hne].
  - destruct (Hzip H200) as (Hex & Hdir & Href).
    rewrite (check_addon_alteration_200 a addon_path tmp r Hget H200 Hex Hdir Href).
    cbv zeta. destruct (String.eqb _ _); by eexists.
  - unfold check_addon_alteration. rewrite Hget. unfold_result.
    destruct (is_http_error (status_code r)); [by eexists|].
    destruct (Z.eqb_spec (status_code r) 200); [done|]. by eexists.
Qed.

(** *** Vulnerabilities of an addon *)

Lemma check_vuln_returns v a lg :
  ∃ a' lg', check_vuln v a lg = Ok (a', lg') ∧
    (a' = a ∨ ∃ d, a' = append_vuln d a) ∧
    (∀ e, LooseVersion.lt (LooseVersion.make (Some (a_version a)))
                          (LooseVersion.make (vuln_fixed_in v)) = Raise e →
          a' = append_vuln
                 (addon_vuln_details (" To check : " +:+ vuln_title v) v) a).
Proof.
  unfold check_vuln.
  destruct (LooseVersion.lt _ _) as [[]|e] eqn:Hlt.
  - eexists _, _. split; [done|]. split; [eauto|done].
  - eexists _, _. split; [done|]. split; [eauto|done].
  - destruct (lt_raises _ _ _ Hlt) as [-> | ->];
      (eexists _, _; split; [done|]; split; [eauto|done]).
Qed.

Lemma vulns_loop_returns vulns : ∀ a lg,
  ∃ a' lg', vulns_loop vulns a lg = Ok (a', lg') ∧
    a_name a' = a_name a ∧ a_type a' = a_type a ∧
    a_version a' = a_version a ∧ a_notes a' = a_notes a ∧
    (∀ d, d ∈ a_vulns a → d ∈ a_vulns a') ∧
    (∀ v e, v ∈ vulns →
       LooseVersion.lt (LooseVersion.make (Some (a_version a)))
                       (LooseVersion.make (vuln_fixed_in v)) = Raise e →
       addon_vuln_details (" To check : " +:+ vuln_title v) v ∈ a_vulns a').
Proof.
  induction vulns as [|v vulns IH]; intros a lg; simpl.
  - eexists _, _. split; [done|]. repeat split; [done|].
    intros v e Hv. by apply elem_of_nil in Hv.
  - destruct (check_vuln_returns v a lg) as (a1 & lg1 & -> & Hshape & Hflag).
    unfold_result. simpl.
    destruct (IH a1 lg1) as (a' & lg' & -> & Hn & Ht & Hv & Hno & Hkeep & Hall).
    assert (a_name a1 = a_name a ∧ a_type a1 = a_type a ∧
            a_version a1 = a_version a ∧ a_notes a1 = a_notes a ∧
            ∀ d, d ∈ a_vulns a → d ∈ a_vulns a1) as (Hn1 & Ht1 & Hv1 & Hno1 & Hk1).
    { destruct Hshape as [-> | [d ->]]; [done|]. simpl.
      repeat split. intros d' Hd'. apply elem_of_app. by left. }
    eexists _, _. split; [done|].
    repeat split; [congruence..| |].
    + eauto.
    + intros w e Hw Hlt. apply elem_of_cons in Hw as [-> | Hw].
      * apply Hkeep. rewrite (Hflag e Hlt). simpl.
        apply elem_of_app. right. by apply list_elem_of_singleton.
      * apply (Hall w e Hw). by rewrite Hv1.
Qed.

Lemma check_vulns_addon_failed a o :
  check_vulns_addon self a = Ok o → out_err o ≠ None →
  out_addon o = set_cve "NO" a.
Proof.
  unfold check_vulns_addon. unfold_result.
  destruct (requests_get _ _) as [r|e]; [|done].
  destruct (is_http_error (status_code r)).
  { by intros [= <-]. }
  destruct (status_code r =? 200); [|by intros [= <-]].
  destruct (json r !! a_name a) as [vulns|]; [|done].
  destruct (vulns_loop_returns vulns a [print_cms "info" "[+] CVE list" "" 1])
    as (a' & lg' & -> & _).
  by intros [= <-].
Qed.

Lemma check_vulns_addon_fields a o :
  check_vulns_addon self a = Ok o →
  a_name (out_addon o) = a_name a ∧ a_type (out_addon o) = a_type a.
Proof.
  unfold check_vulns_addon. unfold_result.
  destruct (requests_get _ _) as [r|e]; [|done].
  destruct (is_http_error (status_code r)).
  { by intros [= <-]. }
  destruct (status_code r =? 200); [|by intros [= <-]].
  destruct (json r !! a_name a) as [vulns|]; [|done].
  destruct (vulns_loop_returns vulns a [print_cms "info" "[+] CVE list" "" 1])
    as (a' & lg' & -> & Hn & Ht & _).
  intros [= <-]. simpl. by destruct (a_vulns a').
Qed.

Lemma check_vulns_addon_returns a r :
  requests_get (addon_vulns_url a) (auth_headers self) = Ok r →
  (status_code r = 200 → is_Some (json r !! a_name a)) →
  ∃ o, check_vulns_addon self a = Ok o.
Proof.
  intros Hget Hkey. unfold check_vulns_addon. rewrite Hget. unfold_result.
  destruct (is_http_error (status_code r)); [by eexists|].
  destruct (Z.eqb_spec (status_code r) 200) as [H200|]; [|by eexists].
  destruct (Hkey H200) as [vulns ->].
  destruct (vulns_loop_returns vulns a [print_cms "info" "[+] CVE list" "" 1])
    as (a' & lg' & -> & _).
  by eexists.
Qed.

(** *** Vulnerabilities of the core *)

Lemma core_loop_spec vulns : ∀ acc lg,
  (core_loop vulns acc lg).1 = acc ++ (core_vuln_details <$> vulns).
Proof.
  induction vulns as [|v vulns IH]; intros acc lg; simpl.
  - by rewrite app_nil_r.
  - rewrite IH. by rewrite <- app_assoc.
Qed.

End StageFacts.

(** C2.  Let the vulnerability database answer 200 with a list of entries for
    the addon.  For every entry of that list whose fixed-in version cannot be
    compared with the installed version (the comparison raises), the check
    returns normally, without an error, and the entry is in the addon's
    vulnerability list under a name that starts with [" To check : "]; the
    addon is reported as having a CVE. *)
Theorem check_vulns_addon_keeps_incomparable `{Env} (self : WP) (a : addon)
    (r : response) (vulns : list vuln) (v : vuln) (e : exn) :
  requests_get (addon_vulns_url a) (auth_headers self) = Ok r →
  status_code r = 200 →
  json r !! a_name a = Some vulns →
  v ∈ vulns →
  LooseVersion.lt (LooseVersion.make (Some (a_version a)))
                  (LooseVersion.make (vuln_fixed_in v)) = Raise e →
  ∃ o, check_vulns_addon self a = Ok o ∧
       out_err o = None ∧
       out_value o = Lst vulns ∧
       addon_vuln_details (" To check : " +:+ vuln_title v) v
         ∈ a_vulns (out_addon o) ∧
       a_cve (out_addon o) = "YES".
Proof.
  intros Hget H200 Hkey Hv Hlt.
  unfold check_vulns_addon. rewrite Hget. unfold_result.
  rewrite H200, not_error_200. simpl. rewrite Hkey.
  destruct (vulns_loop_returns vulns a [print_cms "info" "[+] CVE list" "" 1])
    as (a' & lg' & -> & _ & _ & _ & _ & _ & Hall).
  specialize (Hall v e Hv Hlt).
  eexists. split; [done|]. simpl.
  destruct (a_vulns a') as [|d ds] eqn:Hds.
  - by apply elem_of_nil in Hall.
  - simpl. by rewrite Hds.
Qed.

(** The entry without a fixed-in version of the sample database. *)
Lemma check_vulns_addon_keeps_incomparable_witness :
  ∃ o, @check_vulns_addon Sample.env Sample.self Sample.foo = Ok o ∧
       out_err o = None ∧
       out_value o = Lst Sample.vulns_foo ∧
       {| vd_name := " To check : RCE";
          vd_link := "https://wpvulndb.com/vulnerabilities/3";
          vd_type := "RCE"; vd_poc := "CHECK"; vd_fixed_in := None |}
         ∈ a_vulns (out_addon o) ∧
       a_cve (out_addon o) = "YES".
Proof.
  refine (@check_vulns_addon_keeps_incomparable Sample.env Sample.self Sample.foo
            {| status_code := 200; text := ""; json := {[ "foo" := Sample.vulns_foo ]};
               content := [] |}
            Sample.vulns_foo
            {| vuln_id := 3; vuln_title := "RCE"; vuln_type := "RCE";
               vuln_fixed_in := None |}
            AttributeError _ _ _ _ _).
  - reflexivity.
  - reflexivity.
  - reflexivity.
  - do 2 (apply elem_of_cons; right). apply elem_of_cons. by left.
  - reflexivity.
Defined.

(** C3.  When the archive is downloaded (status 200) and unpacked, the
    directory of the addon and the reference directory being there to be
    hashed: if the hashes of the installed tree and of the reference tree are
    equal, [altered] is set to NO and [alterations] is left as it was; if they
    differ, [altered] is set to YES and [alterations] is what the diff, run
    with the directories css, img, js, fonts and images ignored, makes of it
    -- so when the diff contributes no path, the list stays empty although
    [altered] is YES. *)
Theorem check_addon_alteration_flag `{Env} (a : addon) (addon_path tmp : string)
    (r : response) :
  requests_get (addon_url_of a) [] = Ok r →
  status_code r = 200 →
  extractall r tmp = Ok tt →
  isdir addon_path = true →
  isdir (path_join tmp [a_name a]) = true →
  ∃ o, check_addon_alteration a addon_path tmp = Ok o ∧
       out_err o = None ∧
       dc_ignore (dcmp_of addon_path r) = ["css"; "img"; "js"; "fonts"; "images"] ∧
       (dirhash (read_tree addon_path) = dirhash (content r) →
          a_altered (out_addon o) = "NO" ∧
          a_alterations (out_addon o) = a_alterations a) ∧
       (dirhash (read_tree addon_path) ≠ dirhash (content r) →
          a_altered (out_addon o) = "YES" ∧
          a_alterations (out_addon o)
            = diff_files (dcmp_of addon_path r) (a_alterations a) addon_path ∧
          (diff_files (dcmp_of addon_path r) (a_alterations a) addon_path = [] →
             a_alterations (out_addon o) = [])).
Proof.
  intros Hget H200 Hzip Hdir Href.
  rewrite (check_addon_alteration_200 a addon_path tmp r Hget H200 Hzip Hdir Href).
  cbv zeta.
  destruct (String.eqb_spec (dirhash (read_tree addon_path)) (dirhash (content r)))
    as [Heq|Hne]; (eexists; split; [done|]; simpl; repeat split; done).
Qed.

(** The sample plugin differs from its archive in [css/style.css] only: it is
    reported as altered, with no alteration listed. *)
Lemma check_addon_alteration_flag_witness :
  ∃ o, @check_addon_alteration Sample.env Sample.foo
         "/var/www/wp-content/plugins/foo" "/tmp/comission" = Ok o ∧
       a_altered (out_addon o) = "YES" ∧
       a_alterations (out_addon o) = [].
Proof.
  destruct (@check_addon_alteration_flag Sample.env Sample.foo
              "/var/www/wp-content/plugins/foo" "/tmp/comission"
              {| status_code := 200; text := ""; json := ∅;
                 content := Sample.reference |}
              eq_refl eq_refl eq_refl eq_refl eq_refl)
    as (o & Ho & _ & _ & _ & Hdiff).
  exists o. split; [exact Ho|].
  destruct Hdiff as (Halt & _ & Hempty).
  - vm_compute. discriminate.
  - split; [exact Halt|]. apply Hempty. vm_compute. reflexivity.
Defined.

(** C4, as amended.  A stage that reports a failure has written one key of
    the record and left every other key as it was: [get_addon_last_version]
    and [check_addon_alteration] write [notes]; [check_vulns_addon] writes
    [cve], which it sets to NO, and leaves [notes] as it was. *)
Theorem stage_failure_writes_one_key `{Env} (self : WP) (a : addon)
    (addon_path tmp : string) :
  (∀ o, get_addon_last_version a = Ok o → out_err o ≠ None →
        a_notes (out_addon o) = "Addon not on official site. Search manually !" ∧
        same_but_notes (out_addon o) a) ∧
  (∀ o, check_addon_alteration a addon_path tmp = Ok o → out_err o ≠ None →
        a_notes (out_addon o) = "The download link is not standard. Search manually !" ∧
        same_but_notes (out_addon o) a) ∧
  (∀ o, check_vulns_addon self a = Ok o → out_err o ≠ None →
        a_cve (out_addon o) = "NO" ∧
        same_but_cve (out_addon o) a).
Proof.
  split; [|split]; intros o Ho Herr.
  - rewrite (get_addon_last_version_failed a o Ho Herr).
    split; [done|]. by repeat split.
  - rewrite (check_addon_alteration_failed a addon_path tmp o Ho Herr).
    split; [done|]. by repeat split.
  - rewrite (check_vulns_addon_failed self a o Ho Herr).
    split; [done|]. by repeat split.
Qed.

(** The three stages on a plugin that none of the remote services knows. *)
Lemma stage_failure_writes_one_key_witness :
  (∃ o, @get_addon_last_version Sample.env Sample.baz = Ok o ∧
        out_err o = Some (HTTPError 404) ∧
        a_notes (out_addon o) = "Addon not on official site. Search manually !" ∧
        same_but_notes (out_addon o) Sample.baz) ∧
  (∃ o, @check_addon_alteration Sample.env Sample.baz "/p" "/t" = Ok o ∧
        out_err o = Some (HTTPError 404) ∧
        a_notes (out_addon o) = "The download link is not standard. Search manually !" ∧
        same_but_notes (out_addon o) Sample.baz) ∧
  (∃ o, @check_vulns_addon Sample.env Sample.self Sample.baz = Ok o ∧
        out_err o = Some (HTTPError 404) ∧
        a_cve (out_addon o) = "NO" ∧
        same_but_cve (out_addon o) Sample.baz).
Proof.
  destruct (@stage_failure_writes_one_key Sample.env Sample.self Sample.baz "/p" "/t")
    as (H1 & H2 & H3).
  split; [|split].
  - eexists. split; [reflexivity|]. split; [reflexivity|].
    apply H1; [reflexivity|discriminate].
  - eexists. split; [reflexivity|]. split; [reflexivity|].
    apply H2; [reflexivity|discriminate].
  - eexists. split; [reflexivity|]. split; [reflexivity|].
    apply H3; [reflexivity|discriminate].
Defined.

(** C4, as stated, fails for [check_vulns_addon]: on a 404 of the
    vulnerability database the stage reports the error, changes [cve] and
    does not set [notes]. *)
Lemma check_vulns_addon_failure_writes_cve :
  ∃ o, @check_vulns_addon Sample.env Sample.self Sample.baz = Ok o ∧
       out_err o = Some (HTTPError 404) ∧
       a_notes (out_addon o) = a_notes Sample.baz ∧
       a_notes (out_addon o) = "" ∧
       a_cve Sample.baz = "" ∧
       a_cve (out_addon o) = "NO".
Proof. eexists. repeat split; reflexivity. Qed.

(** C5, as amended.  When the vulnerability database answers with an error
    status (4xx or 5xx, not-found included), [check_vulns_addon] sets [cve]
    to NO and returns the empty string with the error, and [check_vulns_core]
    returns the empty string with the error, having logged one informative
    line.  When the status is neither an error status nor 200, the addon
    record is returned untouched ([cve] stays as it was) and both checks
    return the empty list and no error. *)
Theorem vulndb_non_200 `{Env} (self : WP) (a : addon) (version_core : string)
    (r rc : response) :
  requests_get (addon_vulns_url a) (auth_headers self) = Ok r →
  requests_get (core_vulns_url version_core) (auth_headers self) = Ok rc →
  (is_http_error (status_code r) = true →
     check_vulns_addon self a =
     returned (set_cve "NO" a) [print_cms "info" "[+] No entry on wpvulndb." "" 1]
              (Str "") (Some (HTTPError (status_code r)))) ∧
  (is_http_error (status_code rc) = true →
     check_vulns_core self version_core =
     Ok ([print_cms "info" "No entry on wpvulndb." "" 1], Str "",
         Some (HTTPError (status_code rc)))) ∧
  (is_http_error (status_code r) = false → status_code r ≠ 200 →
     check_vulns_addon self a = returned a [] (Lst []) None) ∧
  (is_http_error (status_code rc) = false → status_code rc ≠ 200 →
     check_vulns_core self version_core = Ok ([], Lst [], None)).
Proof.
  intros Hget Hgetc. repeat split.
  - intros Herr. unfold check_vulns_addon. rewrite Hget. unfold_result.
    by rewrite Herr.
  - intros Herr. unfold check_vulns_core. rewrite Hgetc. unfold_result.
    by rewrite Herr.
  - intros Herr Hne. unfold check_vulns_addon. rewrite Hget. unfold_result.
    rewrite Herr. by destruct (Z.eqb_spec (status_code r) 200).
  - intros Herr Hne. unfold check_vulns_core. rewrite Hgetc. unfold_result.
    rewrite Herr. by destruct (Z.eqb_spec (status_code rc) 200).
Qed.

(** A 404 for the plugin [baz] and for the core 5.1; a 204 for the plugin
    [bar] and for the core 5.0. *)
Lemma vulndb_non_200_witness :
  (@check_vulns_addon Sample.env Sample.self Sample.baz =
     returned (set_cve "NO" Sample.baz)
       [print_cms "info" "[+] No entry on wpvulndb." "" 1]
       (Str "") (Some (HTTPError 404)) ∧
   @check_vulns_core Sample.env Sample.self "5.1" =
     Ok ([print_cms "info" "No entry on wpvulndb." "" 1], Str "",
         Some (HTTPError 404))) ∧
  (@check_vulns_addon Sample.env Sample.self Sample.bar
     = returned Sample.bar [] (Lst []) None ∧
   @check_vulns_core Sample.env Sample.self "5.0" = Ok ([], Lst [], None)).
Proof.
  destruct (@vulndb_non_200 Sample.env Sample.self Sample.baz "5.1"
              {| status_code := 404; text := ""; json := ∅; content := [] |}
              {| status_code := 404; text := ""; json := ∅; content := [] |}
              eq_refl eq_refl) as (Ha & Hc & _ & _).
  destruct (@vulndb_non_200 Sample.env Sample.self Sample.bar "5.0"
              {| status_code := 204; text := ""; json := ∅; content := [] |}
              {| status_code := 204; text := ""; json := ∅; content := [] |}
              eq_refl eq_refl) as (_ & _ & Ha' & Hc').
  split; split.
  - exact (Ha eq_refl).
  - exact (Hc eq_refl).
  - apply Ha'; [reflexivity|discriminate].
  - apply Hc'; [reflexivity|discriminate].
Defined.

(** C5, as stated, fails: a 204 answer is a non-200 answer, and the addon
    check then leaves [cve] empty instead of setting it to NO; and on a 404
    the core check hands the [HTTPError] back to its caller in the error
    slot. *)
Lemma vulndb_204_leaves_cve :
  requests_get (Env := Sample.env) (addon_vulns_url Sample.bar)
      (auth_headers Sample.self)
    = Sample.answer 204 "" ∅ [] ∧
  (∃ o, @check_vulns_addon Sample.env Sample.self Sample.bar = Ok o ∧
        out_err o = None ∧
        a_cve (out_addon o) = "" ∧
        a_cve (out_addon o) ≠ "NO") ∧
  (∃ lg v, @check_vulns_core Sample.env Sample.self "5.1"
             = Ok (lg, v, Some (HTTPError 404))).
Proof.
  split; [reflexivity|]. split.
  - eexists. repeat split; try reflexivity. discriminate.
  - eexists _, _. reflexivity.
Qed.

(** C6.  When the listing page is fetched (status 200) and both patterns
    match, the version found on the page is recorded as the latest version,
    and the alert for an outdated addon is logged exactly when that version
    and the installed one are different strings; when they are the same
    string the only line logged is the one for an up-to-date addon. *)
Theorem up_to_date_is_string_equality `{Env} (a : addon) (r : response)
    (vre dre v d : string) :
  requests_get (releases_url_of a) [] = Ok r →
  status_code r = 200 →
  web_regexps (a_type a) = Some (vre, dre) →
  re_search vre (text r) = Some v →
  re_search dre (text r) = Some d →
  ∃ o, get_addon_last_version a = Ok o ∧
       out_err o = None ∧
       a_last_version (out_addon o) = v ∧
       a_version (out_addon o) = a_version a ∧
       outdated_signal (out_log o) = negb (String.eqb v (a_version a)) ∧
       (v = a_version a → out_log o = [print_cms "good" "Up to date !" "" 1]).
Proof.
  intros Hget H200 Hre Hv Hd.
  unfold get_addon_last_version. rewrite Hget. unfold_result.
  rewrite H200, not_error_200. simpl. rewrite Hre, Hv, Hd. simpl.
  eexists. split; [done|]. simpl.
  destruct (String.eqb_spec v (a_version a)) as [Heq|Hne]; repeat split; done.
Qed.

(** The sample plugin is installed in version 3.0 and the page announces 2.0:
    the alert is logged although 2.0 is the smaller version. *)
Lemma up_to_date_is_string_equality_witness :
  ∃ o, @get_addon_last_version Sample.env Sample.foo = Ok o ∧
       a_last_version (out_addon o) = "2.0" ∧
       a_version (out_addon o) = "3.0" ∧
       outdated_signal (out_log o) = true.
Proof.
  destruct (@up_to_date_is_string_equality Sample.env Sample.foo
              {| status_code := 200; text := "page"; json := ∅; content := [] |}
              regex_version_addon_web_plugin regex_date_last_release_plugin
              "2.0" "2019-03-02T10:00:00"
              eq_refl eq_refl eq_refl eq_refl eq_refl)
    as (o & Ho & _ & Hlast & Hver & Hsig & _).
  exists o. split; [exact Ho|]. split; [exact Hlast|]. split; [exact Hver|].
  exact Hsig.
Defined.



(** ** The loop over the addons *)

Section AnalysisFacts.
Context `{Env}.
Variable self : WP.

Lemma get_addon_main_file_fields a addon_path :
  a_name (get_addon_main_file a addon_path) = a_name a ∧
  a_type (get_addon_main_file a addon_path) = a_type a.
Proof.
  unfold get_addon_main_file.
  destruct (String.eqb (a_type a) "themes"); [done|].
  destruct (String.eqb (a_type a) "plugins"); [|done].
  by destruct (filter _ _).
Qed.

Lemma first_record_fields addon_type key addons_path name :
  a_name (first_record addon_type key addons_path name) = name ∧
  a_type (first_record addon_type key addons_path name) = addon_type.
Proof.
  unfold first_record.
  destruct (get_addon_main_file_fields
              (new_addon addon_type name
                 (if String.eqb addon_type "plugins"
                  then Some (if String.eqb key "mu" then "YES" else "NO")
                  else None))
              (first_path addon_type key addons_path name)) as [-> ->].
  done.
Qed.

(** [analyse_addon] runs the stages from [first_record] and [first_path]. *)
Lemma analyse_addon_unfold addon_type key addons_path tmp name :
  analyse_addon self addon_type key addons_path tmp name =
  let a := first_record addon_type key addons_path name in
  let addon_path := first_path addon_type key addons_path name in
  let lg0 := [print_cms "info" ("[+] " +:+ name) "" 0] in
  o1 ← get_addon_version a addon_path regex_version_addon " ";
  let o1 := (o1 : stage_out string) in
  let lg1 := lg0 ++ out_log o1 in
  if bool_decide (out_err o1 ≠ None) then Ok (out_addon o1, lg1) else
  o2 ← get_addon_last_version (out_addon o1);
  let o2 := (o2 : stage_out string) in
  let lg2 := lg1 ++ out_log o2 in
  if bool_decide (out_err o2 ≠ None) then Ok (out_addon o2, lg2) else
  o3 ← check_vulns_addon self (out_addon o2);
  let o3 := (o3 : stage_out (str_or vuln)) in
  let lg3 := lg2 ++ out_log o3 in
  if bool_decide (out_err o3 ≠ None) then Ok (out_addon o3, lg3) else
  o4 ← check_addon_alteration (out_addon o3) addon_path tmp;
  let o4 := (o4 : stage_out string) in
  let lg4 := lg3 ++ out_log o4 in
  if bool_decide (out_err o4 ≠ None) then Ok (out_addon o4, lg4) else
  Ok (out_addon o4, lg4).
Proof.
  unfold analyse_addon, first_record, first_path.
  destruct (String.eqb addon_type "plugins"); [|reflexivity].
  destruct (String.eqb key "mu"); reflexivity.
Qed.

(** One turn of the loop returns the record of the last stage that ran. *)
Lemma analyse_addon_terminal addon_type key addons_path tmp name :
  transport_answers → version_stage_returns →
  is_Some (web_regexps addon_type) →
  (∀ r, requests_get (cve_ref_url +:+ "plugins/" +:+ name) (auth_headers self) = Ok r →
        status_code r = 200 → is_Some (json r !! name)) →
  (∀ a r, a_name a = name →
          requests_get (addon_url_of a) [] = Ok r → status_code r = 200 →
          extractall r tmp = Ok tt ∧
          isdir (first_path addon_type key addons_path name) = true ∧
          isdir (path_join tmp [name]) = true) →
  ∃ a lg, analyse_addon self addon_type key addons_path tmp name = Ok (a, lg) ∧
          a_name a = name ∧ a_type a = addon_type ∧
          terminal self (first_path addon_type key addons_path name) tmp
            (first_record addon_type key addons_path name) a.
Proof.
  intros Hnet Hver Hre Hkey Hzip. rewrite analyse_addon_unfold. cbv zeta.
  destruct (first_record_fields addon_type key addons_path name) as [Hn0 Ht0].
  set (a0 := first_record addon_type key addons_path name) in *.
  set (p := first_path addon_type key addons_path name) in *.
  destruct (Hver a0 p regex_version_addon " ") as (o1 & Ho1 & Hn1 & Ht1).
  rewrite Ho1. unfold mbind at 1, result_bind at 1, rbind at 1.
  destruct (decide (out_err o1 = None)) as [He1|He1].
  2: { rewrite bool_decide_eq_true_2 by done. eexists _, _. split; [done|].
       split; [congruence|]. split; [congruence|]. by eapply ends_at_version. }
  rewrite bool_decide_eq_false_2 by (rewrite He1; tauto).
  destruct (Hnet (releases_url_of (out_addon o1)) []) as [r2 Hget2].
  destruct (get_addon_last_version_returns (out_addon o1) r2 Hget2) as [o2 Ho2].
  { by rewrite Ht1, Ht0. }
  destruct (get_addon_last_version_fields _ _ Ho2) as [Hn2 Ht2].
  rewrite Ho2. unfold mbind at 1, result_bind at 1, rbind at 1.
  destruct (decide (out_err o2 = None)) as [He2|He2].
  2: { rewrite bool_decide_eq_true_2 by done. eexists _, _. split; [done|].
       split; [congruence|]. split; [congruence|]. by eapply ends_at_last_version. }
  rewrite bool_decide_eq_false_2 by (rewrite He2; tauto).
  assert (a_name (out_addon o2) = name) as Hname2 by congruence.
  destruct (Hnet (addon_vulns_url (out_addon o2)) (auth_headers self)) as [r3 Hget3].
  destruct (check_vulns_addon_returns self (out_addon o2) r3 Hget3) as [o3 Ho3].
  { intros H200. unfold addon_vulns_url in Hget3. rewrite Hname2 in *.
    by apply Hkey. }
  destruct (check_vulns_addon_fields self _ _ Ho3) as [Hn3 Ht3].
  rewrite Ho3. unfold mbind at 1, result_bind at 1, rbind at 1.
  destruct (decide (out_err o3 = None)) as [He3|He3].
  2: { rewrite bool_decide_eq_true_2 by done. eexists _, _. split; [done|].
       split; [congruence|]. split; [congruence|]. by eapply ends_at_vulns. }
  rewrite bool_decide_eq_false_2 by (rewrite He3; tauto).
  assert (a_name (out_addon o3) = name) as Hname3 by congruence.
  destruct (Hnet (addon_url_of (out_addon o3)) []) as [r4 Hget4].
  destruct (check_addon_alteration_returns (out_addon o3) p tmp r4 Hget4)
    as [o4 Ho4].
  { intros H200. rewrite Hname3. by apply (Hzip (out_addon o3) r4). }
  destruct (check_addon_alteration_fields _ _ _ _ Ho4) as [Hn4 Ht4].
  rewrite Ho4. unfold mbind at 1, result_bind at 1, rbind at 1.
  assert (terminal self p tmp a0 (out_addon o4)) as Hend
    by (by eapply ends_at_alteration).
  destruct (bool_decide (out_err o4 ≠ None));
    (eexists _, _; split; [done|]; split; [congruence|]; split; [congruence|done]).
Qed.

Lemma addons_loop_terminal addon_type key addons_path tmp names :
  transport_answers → version_stage_returns →
  is_Some (web_regexps addon_type) →
  vulndb_keyed self names →
  (∀ name a r, name ∈ names → a_name a = name →
     requests_get (addon_url_of a) [] = Ok r → status_code r = 200 →
     extractall r tmp = Ok tt ∧
     isdir (first_path addon_type key addons_path name) = true ∧
     isdir (path_join tmp [name]) = true) →
  ∀ addons lg,
    ∃ new lg', addons_loop self addon_type key addons_path tmp names addons lg
               = Ok (addons ++ new, lg') ∧
               a_name <$> new = names ∧
               Forall (λ a, a_type a = addon_type) new ∧
               Forall2 (λ name a,
                          terminal self (first_path addon_type key addons_path name)
                            tmp (first_record addon_type key addons_path name) a)
                       names new.
Proof.
  intros Hnet Hver Hre.
  induction names as [|name names IH]; intros Hkey Hzip addons lg.
  - exists [], lg. simpl. rewrite app_nil_r. repeat split; constructor.
  - simpl.
    destruct (analyse_addon_terminal addon_type key addons_path tmp name Hnet Hver Hre)
      as (a & lg1 & -> & Hn & Ht & Hend).
    { intros r. apply Hkey. apply elem_of_cons. by left. }
    { intros a r. apply Hzip. apply elem_of_cons. by left. }
    unfold mbind, result_bind, rbind. cbv zeta. simpl.
    destruct IH with (addons := addons ++ [a]) (lg := lg ++ lg1)
      as (new & lg' & -> & Hnames & Htypes & Hends).
    { intros n r Hn'. apply Hkey. apply elem_of_cons. by right. }
    { intros n a' r Hn'. apply Hzip. apply elem_of_cons. by right. }
    exists (a :: new), lg'. split; [by rewrite <- app_assoc|].
    split; [by rewrite fmap_cons, Hn, Hnames|]. split; by constructor.
Qed.

Lemma paths_loop_terminal addon_type tmp paths :
  transport_answers → version_stage_returns →
  is_Some (web_regexps addon_type) →
  vulndb_keyed self (flat_map (λ kp : string * string, fetch_addons kp.2 kp.1) paths) →
  (∀ key addons_path name a r,
     (key, addons_path, name)
       ∈ flat_map (λ kp : string * string,
                     (λ addon_name, (kp.1, kp.2, addon_name)) <$> fetch_addons kp.2 kp.1)
                  paths →
     a_name a = name →
     requests_get (addon_url_of a) [] = Ok r → status_code r = 200 →
     extractall r tmp = Ok tt ∧
     isdir (first_path addon_type key addons_path name) = true ∧
     isdir (path_join tmp [name]) = true) →
  ∀ addons lg,
    ∃ new lg', paths_loop self addon_type tmp paths addons lg
               = Ok (addons ++ new, lg') ∧
               a_name <$> new
               = flat_map (λ kp : string * string, fetch_addons kp.2 kp.1) paths ∧
               Forall (λ a, a_type a = addon_type) new ∧
               Forall2 (λ (job : string * string * string) a,
                          terminal self (first_path addon_type job.1.1 job.1.2 job.2)
                            tmp (first_record addon_type job.1.1 job.1.2 job.2) a)
                       (flat_map (λ kp : string * string,
                                    (λ addon_name, (kp.1, kp.2, addon_name))
                                      <$> fetch_addons kp.2 kp.1) paths)
                       new.
Proof.
  intros Hnet Hver Hre.
  induction paths as [|[key addons_path] paths IH]; intros Hkey Hzip addons lg.
  - exists [], lg. simpl. rewrite app_nil_r. repeat split; constructor.
  - simpl in Hkey, Hzip. cbn [paths_loop flat_map].
    destruct (addons_loop_terminal addon_type key addons_path tmp
                (fetch_addons addons_path key) Hnet Hver Hre) with
      (addons := addons) (lg := lg) as (new1 & lg1 & -> & Hn1 & Ht1 & He1).
    { intros n r Hn. apply Hkey. apply elem_of_app. by left. }
    { intros n a r Hn. apply Hzip. apply elem_of_app. left.
      by apply (list_elem_of_fmap_2 (λ addon_name, (key, addons_path, addon_name))). }
    unfold mbind, result_bind, rbind. cbv zeta. simpl.
    destruct IH with (addons := addons ++ new1) (lg := lg1)
      as (new2 & lg2 & -> & Hn2 & Ht2 & He2).
    { intros n r Hn. apply Hkey. apply elem_of_app. by right. }
    { intros k p n a r Hn. apply Hzip. apply elem_of_app. by right. }
    exists (new1 ++ new2), lg2. rewrite <- app_assoc.
    split; [done|]. split; [by rewrite fmap_app, Hn1, Hn2|].
    split; [by apply Forall_app|].
    apply Forall2_app; [|done]. by apply Forall2_fmap_l.
Qed.

(** *** [get_wp_content] *)

Lemma issubset_spec sub :
  issubset ["plugins"; "themes"] sub = true ↔ "plugins" ∈ sub ∧ "themes" ∈ sub.
Proof.
  unfold issubset. simpl. rewrite andb_true_r, andb_true_iff.
  by rewrite !bool_decide_eq_true.
Qed.

Lemma find_suspects_returns dir_path dirs :
  (∀ d, d ∈ dirs → is_Some (walk_dirs (path_join dir_path [d]))) →
  ∀ acc, ∃ l, find_suspects dir_path dirs acc = Ok (acc ++ l) ∧
              ((∀ d, d ∈ dirs → ¬ is_wp_content dir_path d) → l = []).
Proof.
  induction dirs as [|d dirs IH]; intros Hwalk acc.
  - exists []. simpl. by rewrite app_nil_r.
  - cbn [find_suspects]. destruct (Hwalk d) as [sub Hsub]; [apply elem_of_cons; by left|].
    rewrite Hsub. unfold_result.
    destruct (issubset ["plugins"; "themes"] sub) eqn:Hq.
    + destruct IH with (acc := acc ++ [d]) as (l & -> & Hnone).
      { intros d' Hd'. apply Hwalk. apply elem_of_cons. by right. }
      exists (d :: l). rewrite <- app_assoc. split; [done|].
      intros Hno. exfalso. apply (Hno d); [apply elem_of_cons; by left|].
      exists sub. split; [done|]. by apply issubset_spec.
    + destruct IH with (acc := acc) as (l & -> & Hnone).
      { intros d' Hd'. apply Hwalk. apply elem_of_cons. by right. }
      exists l. split; [done|].
      intros Hno. apply Hnone. intros d' Hd'. apply Hno.
      apply elem_of_cons. by right.
Qed.

Lemma find_suspects_stops dir_path dirs d :
  d ∈ dirs → walk_dirs (path_join dir_path [d]) = None →
  ∀ acc, find_suspects dir_path dirs acc = Raise StopIteration.
Proof.
  intros Hd Hnone. induction dirs as [|d0 dirs IH]; intros acc.
  - by apply elem_of_nil in Hd.
  - cbn [find_suspects]. unfold_result.
    destruct (walk_dirs (path_join dir_path [d0])) as [sub|] eqn:Hsub; [|done].
    apply elem_of_cons in Hd as [-> | Hd]; [congruence|].
    destruct (issubset _ _); by apply IH.
Qed.

Lemma find_suspects_raises dir_path dirs e :
  ∀ acc, find_suspects dir_path dirs acc = Raise e →
         e = StopIteration ∧
         ∃ d, d ∈ dirs ∧ walk_dirs (path_join dir_path [d]) = None.
Proof.
  induction dirs as [|d dirs IH]; intros acc; cbn [find_suspects]; [done|].
  unfold_result.
  destruct (walk_dirs (path_join dir_path [d])) as [sub|] eqn:Hsub.
  - destruct (issubset _ _); intros Hr; destruct (IH _ Hr) as (-> & d' & Hd' & Hnone);
      (split; [done|]; exists d'; split; [apply elem_of_cons; by right|done]).
  - intros [= <-]. split; [done|]. exists d. split; [apply elem_of_cons; by left|done].
Qed.

End AnalysisFacts.

(** C8, as amended.  Provided no stage raises an exception that it does not
    catch -- the transport answers every request, the version stage returns,
    a 200 answer of the vulnerability database holds the addon's entry, and an
    archive fetched with status 200 unpacks, the directory of the addon and
    the reference directory being there to be hashed -- [addon_analysis]
    returns one record for each discovered addon, in the order of discovery,
    whatever statuses the remote services answer with.  The record of an addon
    is the one left by the first of its stages that reports an error, or by
    the alteration check when none does: a failure that a stage reports ends
    the stages of that addon, none of the later ones runs on its record, and
    the record is appended all the same. *)
Theorem addon_analysis_one_record_each `{Env} (self : WP) (addon_type : string) :
  transport_answers →
  version_stage_returns →
  vulndb_keyed self (discovered self addon_type) →
  archives_unpack self addon_type →
  ∃ addons lg,
    addon_analysis self addon_type = Ok (addons, lg) ∧
    a_name <$> addons = discovered self addon_type ∧
    length addons = length (discovered self addon_type) ∧
    Forall (λ a, a_type a = addon_type) addons ∧
    Forall2 (terminal_of self addon_type) (worklist self addon_type) addons.
Proof.
  intros Hnet Hver Hkey Hzip.
  unfold addon_analysis, discovered, archives_unpack, worklist in *.
  destruct (web_regexps addon_type) as [re|] eqn:Hre.
  - edestruct (paths_loop_terminal self addon_type temp_directory
                (addons_paths_of self addon_type) Hnet Hver) with (addons := @nil addon)
      as (new & lg' & Hrun & Hnames & Htypes & Hends);
      [by rewrite Hre|exact Hkey| |].
    { intros key addons_path name a r Hjob. by apply Hzip. }
    exists new, lg'. split; [exact Hrun|]. split; [exact Hnames|].
    split; [by rewrite <- Hnames, length_fmap|]. split; [exact Htypes|exact Hends].
  - unfold web_regexps in Hre. unfold addons_paths_of.
    destruct (String.eqb addon_type "plugins"); [done|].
    destruct (String.eqb addon_type "themes"); [done|].
    eexists _, _. simpl. repeat split; constructor.
Qed.

Lemma sample_transport_answers : @transport_answers Sample.env.
Proof.
  intros url headers. simpl. unfold Sample.get, Sample.answer.
  repeat match goal with |- context [String.eqb ?x ?y] => destruct (String.eqb x y) end;
    eexists; reflexivity.
Defined.

Lemma sample_version_stage_returns : @version_stage_returns Sample.env.
Proof. intros a p re strip. eexists. repeat split. Defined.

Lemma sample_vulndb_keyed :
  @vulndb_keyed Sample.env Sample.self (@discovered Sample.env Sample.self "plugins").
Proof.
  intros name r Hname.
  change (name ∈ ["foo"; "bar"]) in Hname.
  apply elem_of_cons in Hname as [-> | Hname].
  - intros [= <-] _. eexists. reflexivity.
  - apply elem_of_cons in Hname as [-> | Hname].
    + intros [= <-] H200. discriminate H200.
    + by apply elem_of_nil in Hname.
Defined.

Lemma sample_archives_unpack : @archives_unpack Sample.env Sample.self "plugins".
Proof. intros key addons_path name a r _ _ _ _. repeat split. Defined.

(** The sample site: [foo] goes through all the stages and is found altered;
    [bar] is not listed on the official site, so its record has the note of
    the latest-version stage and nothing of the two stages after it.  Both
    have their record. *)
Lemma addon_analysis_one_record_each_witness :
  ∃ addons lg,
    @addon_analysis Sample.env Sample.self "plugins" = Ok (addons, lg) ∧
    a_name <$> addons = ["foo"; "bar"] ∧
    length addons = 2%nat ∧
    Forall (λ a, a_type a = "plugins") addons ∧
    Forall2 (@terminal_of Sample.env Sample.self "plugins")
      [("standard", "/var/www/wp-content/plugins", "foo");
       ("standard", "/var/www/wp-content/plugins", "bar")] addons ∧
    a_altered <$> addons = ["YES"; ""] ∧
    a_cve <$> addons = ["YES"; ""] ∧
    a_notes <$> addons = [""; "Addon not on official site. Search manually !"].
Proof.
  destruct (@addon_analysis_one_record_each Sample.env Sample.self "plugins"
              sample_transport_answers sample_version_stage_returns
              sample_vulndb_keyed sample_archives_unpack)
    as (addons & lg & Hrun & Hnames & Hlen & Htypes & Hends).
  exists addons, lg. split; [exact Hrun|]. split; [exact Hnames|].
  split; [exact Hlen|]. split; [exact Htypes|]. split; [exact Hends|].
  pose proof Hrun as Hc. vm_compute in Hc. injection Hc as <- _.
  repeat split.
Defined.

(** C8, as stated, fails: a stage catches nothing but the [HTTPError] of an
    error status.  With the network down the first lookup raises, and the run
    ends without a result although two addons were discovered; so does a run
    in which the vulnerability database answers 200 without an entry for the
    addon, and a run in which what is downloaded for an addon is no
    archive. *)
Lemma addon_analysis_aborts :
  @discovered Sample.offline Sample.self "plugins" = ["foo"; "bar"] ∧
  @addon_analysis Sample.offline Sample.self "plugins" = Raise ConnectionError ∧
  @discovered SampleUnkeyed.env Sample.self "plugins" = ["foo"; "bar"] ∧
  @addon_analysis SampleUnkeyed.env Sample.self "plugins" = Raise (KeyError "foo") ∧
  @discovered Sample.corrupt Sample.self "plugins" = ["foo"; "bar"] ∧
  @addon_analysis Sample.corrupt Sample.self "plugins" = Raise BadZipFile.
Proof. repeat split; reflexivity. Qed.

(** ** The content hash *)

Section HashFacts.

Lemma by_path_total : Total by_path.
Proof. intros e1 e2. unfold by_path. apply (total String.le). Qed.

Lemma key_le_trans : Transitive key_le.
Proof. intros p q r. unfold key_le. apply transitivity. Qed.

Lemma paths_of_tree (t : tree) : (path_content <$> t).*1 = f_path <$> t.
Proof. rewrite <- list_fmap_compose. done. Qed.

(** Sorting by path lists the pairs (path, content) of a tree in the one
    order fixed by the mapping. *)
Lemma sorted_pairs_unique (t1 t2 : tree) :
  NoDup (f_path <$> t1) → NoDup (f_path <$> t2) →
  tree_map t1 = tree_map t2 →
  path_content <$> merge_sort by_path t1 = path_content <$> merge_sort by_path t2.
Proof.
  intros Hnd1 Hnd2 Hmap.
  pose proof by_path_total as Htot. pose proof key_le_trans as Htrans.
  assert (path_content <$> t1 ≡ₚ path_content <$> t2) as Hperm.
  { apply list_to_map_inj; [by rewrite paths_of_tree..|]. exact Hmap. }
  assert (∀ t, path_content <$> merge_sort by_path t ≡ₚ path_content <$> t) as Hs.
  { intros t. apply fmap_Permutation, merge_sort_Permutation. }
  apply (Sorted_unique_strong key_le).
  - intros p q Hp Hq Hpq Hqp.
    rewrite Hs in Hp. rewrite Hs, <- Hperm in Hq.
    assert (p.1 = q.1) as Hk by (apply (anti_symm String.le); done).
    destruct p as [k c], q as [k' c']. simpl in Hk. subst k'.
    f_equal.
    assert (NoDup (path_content <$> t1).*1) as Hnd by (by rewrite paths_of_tree).
    apply (elem_of_list_to_map_1 (M := gmap string)) in Hp; [|done].
    apply (elem_of_list_to_map_1 (M := gmap string)) in Hq; [|done].
    congruence.
  - apply Sorted_fmap with (R1 := by_path); [done|]. by apply Sorted_merge_sort.
  - apply Sorted_fmap with (R1 := by_path); [done|]. by apply Sorted_merge_sort.
  - by rewrite !Hs.
Qed.

End HashFacts.

(** C9.  Two trees (the paths of a tree are pairwise distinct) that map the
    same relative paths to the same contents have the same content hash,
    whatever the time stamps, the permissions and the order in which the
    file system lists the files. *)
Theorem dirhash_depends_on_content_only (file_digest : string → string)
    (combine : list (string * string) → string) (t1 t2 : tree) :
  NoDup (f_path <$> t1) →
  NoDup (f_path <$> t2) →
  tree_map t1 = tree_map t2 →
  dirhash_model file_digest combine t1 = dirhash_model file_digest combine t2.
Proof.
  intros Hnd1 Hnd2 Hmap. unfold dirhash_model. f_equal.
  pose proof (sorted_pairs_unique t1 t2 Hnd1 Hnd2 Hmap) as Heq.
  change (λ e, (f_path e, file_digest (f_content e)))
    with ((λ p : string * string, (p.1, file_digest p.2)) ∘ path_content).
  by rewrite !(list_fmap_compose path_content), Heq.
Qed.

(** The installed sample plugin and a copy of it with other time stamps,
    other permissions and another listing order. *)
Lemma dirhash_depends_on_content_only_witness :
  Sample.hash Sample.installed = Sample.hash Sample.installed_copy.
Proof.
  apply dirhash_depends_on_content_only.
  - apply (bool_decide_unpack _). vm_compute. exact I.
  - apply (bool_decide_unpack _). vm_compute. exact I.
  - vm_compute. reflexivity.
Defined.

(** ** [wp-content] discovery *)

(** C10, as amended.  [get_wp_content] never returns an empty list, so the
    constructor never fails on taking its first element.  For a directory
    whose sub-directories can be listed, and theirs, the method does return: a
    list that is not empty, and the single name [wp-content] when no
    sub-directory holds both [plugins] and [themes]; the constructor then
    returns with the first element of that list.  When the method does not
    return it has raised [StopIteration], which happens exactly when the
    directory, or one of its sub-directories, cannot be listed; the
    constructor called without a [wp-content] then raises with it. *)
Theorem get_wp_content_nonempty `{Env} (dir_path : string) :
  (∀ suspects lg, get_wp_content dir_path = Ok (suspects, lg) → suspects ≠ []) ∧
  (∀ plugins_dir themes_dir token,
     __init__ dir_path "" plugins_dir themes_dir token ≠ Raise IndexError) ∧
  (∀ dirs,
     walk_dirs dir_path = Some dirs →
     (∀ d, d ∈ dirs → is_Some (walk_dirs (path_join dir_path [d]))) →
     ∃ suspects lg,
       get_wp_content dir_path = Ok (suspects, lg) ∧
       suspects ≠ [] ∧
       ((∀ d, d ∈ dirs → ¬ is_wp_content dir_path d) → suspects = ["wp-content"]) ∧
       (∀ plugins_dir themes_dir token,
          ∃ w, __init__ dir_path "" plugins_dir themes_dir token = Ok w ∧
               suspects !! 0%nat = Some (wp_content w))) ∧
  (∀ e, get_wp_content dir_path = Raise e →
        e = StopIteration ∧
        (walk_dirs dir_path = None ∨
         ∃ dirs d, walk_dirs dir_path = Some dirs ∧ d ∈ dirs ∧
                   walk_dirs (path_join dir_path [d]) = None)) ∧
  (walk_dirs dir_path = None ∨
   (∃ dirs d, walk_dirs dir_path = Some dirs ∧ d ∈ dirs ∧
              walk_dirs (path_join dir_path [d]) = None) →
   get_wp_content dir_path = Raise StopIteration ∧
   ∀ plugins_dir themes_dir token,
     __init__ dir_path "" plugins_dir themes_dir token = Raise StopIteration).
Proof.
  assert (∀ suspects lg, get_wp_content dir_path = Ok (suspects, lg) → suspects ≠ [])
    as Hne.
  { intros suspects lg. unfold get_wp_content. unfold_result.
    destruct (walk_dirs dir_path) as [dirs|]; [|done].
    destruct (find_suspects dir_path dirs []) as [l|]; [|done].
    intros [= <- _]. destruct l as [|d l]; [done|].
    destruct (Z.of_nat (length (d :: l)) =? 0); [|done]. by destruct l. }
  assert (∀ suspects lg plugins_dir themes_dir token,
            get_wp_content dir_path = Ok (suspects, lg) →
            ∃ w, __init__ dir_path "" plugins_dir themes_dir token = Ok w ∧
                 suspects !! 0%nat = Some (wp_content w)) as Hinit.
  { intros suspects lg plugins_dir themes_dir token Hget.
    pose proof (Hne _ _ Hget) as Hs.
    unfold __init__. simpl. rewrite Hget. unfold_result. simpl.
    destruct suspects as [|s suspects]; [done|]. simpl. by eexists. }
  split; [exact Hne|]. split; [|split; [|split]].
  - intros plugins_dir themes_dir token.
    destruct (get_wp_content dir_path) as [[suspects lg]|e] eqn:Hget.
    + destruct (Hinit suspects lg plugins_dir themes_dir token eq_refl) as (w & -> & _).
      done.
    + unfold __init__. simpl. rewrite Hget. unfold_result.
      intros [= ->]. revert Hget. unfold get_wp_content. unfold_result.
      destruct (walk_dirs dir_path) as [dirs|]; [|done].
      assert (∀ ds acc, find_suspects dir_path ds acc ≠ Raise IndexError) as Hfind.
      { induction ds as [|d ds IH]; intros acc; cbn [find_suspects]; [done|].
        unfold_result.
        destruct (walk_dirs (path_join dir_path [d])); [|done].
        destruct (issubset _ _); apply IH. }
      destruct (find_suspects dir_path dirs []) as [l|e] eqn:Hl; [done|].
      intros [= ->]. by apply Hfind in Hl.
  - intros dirs Hwalk Hsubs.
    destruct (find_suspects_returns dir_path dirs Hsubs []) as (l & Hfind & Hnone).
    simpl in Hfind.
    assert (∃ suspects lg, get_wp_content dir_path = Ok (suspects, lg) ∧
              (l = [] → suspects = ["wp-content"]))
      as (suspects & lg & Hget & Hfall).
    { unfold get_wp_content. rewrite Hwalk. unfold_result. rewrite Hfind.
      destruct l as [|d l]; eexists _, _; (split; [reflexivity|]); done. }
    exists suspects, lg. split; [exact Hget|]. split; [by eapply Hne|].
    split; [by intros Hno; apply Hfall, Hnone|].
    intros plugins_dir themes_dir token. by eapply Hinit.
  - intros e. unfold get_wp_content. unfold_result.
    destruct (walk_dirs dir_path) as [dirs|] eqn:Hwalk.
    + destruct (find_suspects dir_path dirs []) as [l|e'] eqn:Hfind; [done|].
      intros [= ->]. destruct (find_suspects_raises _ _ _ _ Hfind) as (-> & d & Hd & Hnone).
      split; [done|]. right. by exists dirs, d.
    + intros [= <-]. split; [done|]. by left.
  - intros Hbad.
    assert (get_wp_content dir_path = Raise StopIteration) as Hget.
    { unfold get_wp_content. unfold_result.
      destruct Hbad as [-> | (dirs & d & -> & Hd & Hnone)]; [done|].
      by rewrite (find_suspects_stops dir_path dirs d Hd Hnone). }
    split; [done|]. intros plugins_dir themes_dir token.
    unfold __init__. simpl. by rewrite Hget.
Qed.

(** The sample site, where [wp-content] holds both directories, and an empty
    directory, where the default name is returned. *)
Lemma get_wp_content_nonempty_witness :
  (∃ w, @__init__ Sample.env "/var/www" "" "" "" "secret" = Ok w ∧
        wp_content w = "wp-content") ∧
  (∃ lg, @get_wp_content Sample.env "/srv/empty" = Ok (["wp-content"], lg)).
Proof.
  split.
  - destruct (@get_wp_content_nonempty Sample.env "/var/www") as (_ & _ & Hret & _).
    destruct (Hret ["wp-admin"; "wp-content"] eq_refl)
      as (suspects & lg & Hget & _ & _ & Hinit).
    { intros d Hd. apply elem_of_cons in Hd as [-> | Hd]; [by eexists|].
      apply elem_of_cons in Hd as [-> | Hd]; [by eexists|].
      by apply elem_of_nil in Hd. }
    destruct (Hinit "" "" "secret") as (w & Hw & Hfirst).
    exists w. split; [exact Hw|].
    injection Hget as <- _. by injection Hfirst as <-.
  - destruct (@get_wp_content_nonempty Sample.env "/srv/empty") as (_ & _ & Hret & _).
    destruct (Hret [] eq_refl) as (suspects & lg & Hget & _ & Hfall & _).
    { intros d Hd. by apply elem_of_nil in Hd. }
    exists lg. rewrite Hget, Hfall; [done|].
    intros d Hd. by apply elem_of_nil in Hd.
Defined.

(** C10, as stated, fails for a path that cannot be listed: the method raises
    [StopIteration] where the claim has it return a list, and the constructor
    called without a [wp-content] raises with it.  So it is for a path that
    does not exist, and for an existing directory one of whose
    sub-directories cannot be listed. *)
Lemma get_wp_content_no_list :
  Sample.walk "/nowhere" = None ∧
  @get_wp_content Sample.env "/nowhere" = Raise StopIteration ∧
  @__init__ Sample.env "/nowhere" "" "" "" "secret" = Raise StopIteration ∧
  Sample.walk "/var/www/wp-admin" = Some ["css"] ∧
  Sample.walk "/var/www/wp-admin/css" = None ∧
  @get_wp_content Sample.env "/var/www/wp-admin" = Raise StopIteration.
Proof. repeat split; reflexivity. Qed.

(** * Further properties of the module *)

(** ** The comparison of versions *)

Section MoreVersionFacts.
Import LooseVersion.

Lemma version_make v :
  version (make v) = if truthy v then parse <$> v else None.
Proof. by destruct v as [[|c s]|]. Qed.

Lemma lt_numeric a b ra rb :
  numeric_runs a = Some ra → numeric_runs b = Some rb →
  lt (make (Some a)) (make (Some b)) = Ok (is_Lt (lex_compare ra rb)).
Proof.
  intros Ha Hb. unfold lt. rewrite (cmp_numeric _ _ _ _ Ha Hb). cbn.
  by destruct (lex_compare ra rb).
Qed.

Lemma lex_compare_opp a : ∀ b, lex_compare b a = CompOpp (lex_compare a b).
Proof.
  induction a as [|x a IH]; intros [|y b]; simpl; try done.
  rewrite (Z.compare_antisym x y). destruct (x ?= y); simpl; auto.
Qed.

Lemma lex_compare_eq a : ∀ b, lex_compare a b = Eq ↔ a = b.
Proof.
  induction a as [|x a IH]; intros [|y b]; simpl; try done.
  destruct (Z.compare_spec x y) as [->|Hlt|Hgt].
  - rewrite IH. split; [by intros ->|by intros [= ->]].
  - split; [done|]. intros [= -> _]. lia.
  - split; [done|]. intros [= -> _]. lia.
Qed.

Lemma lex_compare_trans a : ∀ b c,
  lex_compare a b = Lt → lex_compare b c = Lt → lex_compare a c = Lt.
Proof.
  induction a as [|x a IH]; intros [|y b] [|z c]; simpl; try done.
  destruct (Z.compare_spec x y) as [->|Hxy|Hxy]; [|  |done].
  - destruct (y ?= z); [by apply IH|done|done].
  - destruct (Z.compare_spec y z) as [->|Hyz|Hyz]; [| |done]; intros _ _.
    + by destruct (Z.compare_spec x z) as [->| |]; [lia|done|lia].
    + by destruct (Z.compare_spec x z) as [->| |]; [lia|done|lia].
Qed.

End MoreVersionFacts.

(** X1.  On well-formed dotted-numeric version strings the comparison of
    line 308 is a strict total order of the number sequences: of two strings
    exactly one is below the other unless their sequences are equal, in which
    case neither is; and the order is transitive. *)
Theorem LooseVersion_numeric_strict_total (a b : string) (ra rb : list Z) :
  numeric_runs a = Some ra →
  numeric_runs b = Some rb →
  let below x y := LooseVersion.lt (LooseVersion.make (Some x))
                                   (LooseVersion.make (Some y)) in
  ((below a b = Ok true ∧ below b a = Ok false ∧ ra ≠ rb) ∨
   (below a b = Ok false ∧ below b a = Ok true ∧ ra ≠ rb) ∨
   (below a b = Ok false ∧ below b a = Ok false ∧ ra = rb)) ∧
  (∀ c rc, numeric_runs c = Some rc →
     below a b = Ok true → below b c = Ok true → below a c = Ok true).
Proof.
  intros Ha Hb below. unfold below. split.
  - rewrite (lt_numeric _ _ _ _ Ha Hb), (lt_numeric _ _ _ _ Hb Ha).
    rewrite (lex_compare_opp ra rb).
    destruct (lex_compare ra rb) eqn:Hc; simpl.
    + right; right. repeat split. by apply lex_compare_eq.
    + left. repeat split. intros Heq. apply lex_compare_eq in Heq. congruence.
    + right; left. repeat split. intros Heq. apply lex_compare_eq in Heq. congruence.
  - intros c rc Hc.
    rewrite (lt_numeric _ _ _ _ Ha Hb), (lt_numeric _ _ _ _ Hb Hc),
            (lt_numeric _ _ _ _ Ha Hc).
    destruct (lex_compare ra rb) eqn:Hab; simpl; try discriminate.
    destruct (lex_compare rb rc) eqn:Hbc; simpl; try discriminate.
    intros _ _. by rewrite (lex_compare_trans _ _ _ Hab Hbc).
Qed.

Lemma LooseVersion_numeric_strict_total_witness :
  LooseVersion.lt (LooseVersion.make (Some "2.9")) (LooseVersion.make (Some "10"))
    = Ok true.
Proof.
  exact (proj2 (LooseVersion_numeric_strict_total "2.9" "2.10.1" [2; 9] [2; 10; 1]
                  eq_refl eq_refl) "10" [10] eq_refl eq_refl eq_refl).
Defined.

(** X2.  The comparison raises [AttributeError] exactly when one of the two
    version strings is missing or empty; in every other case it returns or
    raises [TypeError]. *)
Theorem LooseVersion_attribute_error (a b : option string) :
  (LooseVersion.lt (LooseVersion.make a) (LooseVersion.make b) = Raise AttributeError
   ↔ truthy a = false ∨ truthy b = false) ∧
  (∀ e, LooseVersion.lt (LooseVersion.make a) (LooseVersion.make b) = Raise e →
        e = AttributeError ∨ e = TypeError).
Proof.
  split.
  - unfold LooseVersion.lt, LooseVersion._cmp, LooseVersion.get_version.
    destruct a as [[|ca sa]|], b as [[|cb sb]|]; simpl;
      try (split; [by auto|done]).
    split; [|by intros [|]].
    unfold mbind, result_bind, rbind.
    destruct (LooseVersion.list_eqb _ _); [done|].
    destruct (LooseVersion.list_lt _ _) as [[]|e1] eqn:Hlt; [done| |].
    + destruct (LooseVersion.list_gt _ _) as [[]|e2] eqn:Hgt; [done|done|].
      intros [= ->]. by apply list_gt_raises in Hgt.
    + intros [= ->]. by apply list_lt_raises in Hlt.
  - intros e He. destruct (lt_raises _ _ _ He); auto.
Qed.

(** ** The vulnerabilities of an addon *)

Section MoreVulnFacts.
Context `{Env}.
Variable self : WP.

Lemma check_vuln_spec v a lg :
  ∃ a' lg', check_vuln v a lg = Ok (a', lg') ∧
    a_vulns a' = a_vulns a ++ reported (a_version a) v ∧
    same_but_vulns a' a.
Proof.
  unfold check_vuln, reported.
  destruct (LooseVersion.lt _ _) as [[]|e] eqn:Hlt.
  - eexists _, _. split; [done|]. split; [done|]. by repeat split.
  - eexists _, _. split; [done|]. split; [by rewrite app_nil_r|].
    by repeat split.
  - destruct (lt_raises _ _ _ Hlt) as [-> | ->];
      (eexists _, _; split; [done|]; split; [done|]; by repeat split).
Qed.

Lemma vulns_loop_spec vulns : ∀ a lg,
  ∃ a' lg', vulns_loop vulns a lg = Ok (a', lg') ∧
    a_vulns a' = a_vulns a ++ flat_map (reported (a_version a)) vulns ∧
    same_but_vulns a' a.
Proof.
  induction vulns as [|v vulns IH]; intros a lg; cbn [vulns_loop flat_map].
  - eexists _, _. split; [done|]. split; [by rewrite app_nil_r|].
    by repeat split.
  - destruct (check_vuln_spec v a lg) as (a1 & lg1 & -> & Hv1 & Hs1).
    unfold mbind, result_bind, rbind. cbn [fst snd].
    destruct (IH a1 lg1) as (a' & lg' & -> & Hv & Hs).
    eexists _, _. split; [done|].
    assert (a_version a1 = a_version a) as Hver by apply Hs1.
    split.
    + rewrite Hv, Hv1, Hver. by rewrite <- app_assoc.
    + unfold same_but_vulns in *. intuition congruence.
Qed.

Lemma addon_vuln_details_poc name v : poc_checked (addon_vuln_details name v).
Proof.
  unfold poc_checked, addon_vuln_details. simpl.
  destruct (get_poc _); [left|right]; done.
Qed.

Lemma reported_poc_checked installed v :
  Forall poc_checked (reported installed v).
Proof.
  unfold reported.
  destruct (LooseVersion.lt _ _) as [[]|e];
    [apply Forall_singleton, addon_vuln_details_poc
    |apply Forall_nil_2
    |apply Forall_singleton, addon_vuln_details_poc].
Qed.

(** The shape of every normal return of the check. *)
Lemma check_vulns_addon_shape a o :
  check_vulns_addon self a = Ok o →
  ∃ vulns,
    a_vulns (out_addon o) = a_vulns a ++ flat_map (reported (a_version a)) vulns ∧
    a_version (out_addon o) = a_version a ∧
    (a_vulns (out_addon o) ≠ [] → a_vulns (out_addon o) ≠ a_vulns a →
       a_cve (out_addon o) = "YES").
Proof.
  unfold check_vulns_addon. unfold_result.
  destruct (requests_get _ _) as [r|e]; [|done].
  destruct (is_http_error (status_code r)).
  { intros [= <-]. exists []. simpl. by rewrite app_nil_r. }
  destruct (status_code r =? 200);
    [|intros [= <-]; exists []; simpl; by rewrite app_nil_r].
  destruct (json r !! a_name a) as [vulns|]; [|done].
  destruct (vulns_loop_spec vulns a [print_cms "info" "[+] CVE list" "" 1])
    as (a' & lg' & -> & Hv & Hs).
  intros [= <-]. exists vulns. simpl.
  destruct (a_vulns a') as [|d ds] eqn:Hds; simpl; rewrite ?Hds.
  - split; [done|]. split; [apply Hs|done].
  - split; [done|]. split; [apply Hs|done].
Qed.

(** What the check makes of a 200 answer. *)
Lemma check_vulns_addon_200 a r vulns :
  requests_get (addon_vulns_url a) (auth_headers self) = Ok r →
  status_code r = 200 →
  json r !! a_name a = Some vulns →
  ∃ o, check_vulns_addon self a = Ok o ∧
       out_err o = None ∧
       a_vulns (out_addon o) = a_vulns a ++ flat_map (reported (a_version a)) vulns ∧
       (a_vulns (out_addon o) = [] → a_cve (out_addon o) = "NO") ∧
       (a_vulns (out_addon o) ≠ [] → a_cve (out_addon o) = "YES") ∧
       a_version (out_addon o) = a_version a.
Proof.
  intros Hget H200 Hkey.
  unfold check_vulns_addon. rewrite Hget. unfold_result.
  rewrite H200, not_error_200. simpl. rewrite Hkey.
  destruct (vulns_loop_spec vulns a [print_cms "info" "[+] CVE list" "" 1])
    as (a' & lg' & -> & Hv & Hs).
  eexists. split; [done|]. simpl.
  destruct (a_vulns a') as [|d ds] eqn:Hds; simpl; rewrite ?Hds;
    (split; [done|]; split; [done|]; split; [done|]; split; [done|]; apply Hs).
Qed.

End MoreVulnFacts.

(** X3.  When the vulnerability database answers 200 with the list of the
    addon, the vulnerability list of the record is the one it had, followed,
    in the order of the database, by what each entry contributes: the entry
    itself when the installed version is below its fixed-in version, the entry
    marked [" To check : "] when the two cannot be compared, nothing
    otherwise.  [cve] is YES when the resulting list is not empty and NO when
    it is, and the installed version is not touched. *)
Theorem check_vulns_addon_reports `{Env} (self : WP) (a : addon) (r : response)
    (vulns : list vuln) :
  requests_get (addon_vulns_url a) (auth_headers self) = Ok r →
  status_code r = 200 →
  json r !! a_name a = Some vulns →
  ∃ o, check_vulns_addon self a = Ok o ∧
       out_err o = None ∧
       a_vulns (out_addon o) = a_vulns a ++ flat_map (reported (a_version a)) vulns ∧
       (a_vulns (out_addon o) = [] → a_cve (out_addon o) = "NO") ∧
       (a_vulns (out_addon o) ≠ [] → a_cve (out_addon o) = "YES") ∧
       a_version (out_addon o) = a_version a.
Proof. apply check_vulns_addon_200. Qed.

(** The plugin [foo] of the sample site, installed in version 3.0: of the four
    entries, the one fixed in 3.5 is reported, the one fixed in 0.9 is not,
    the two others are marked. *)
Lemma check_vulns_addon_reports_witness :
  ∃ o, @check_vulns_addon Sample.env Sample.self Sample.foo = Ok o ∧
       vd_name <$> a_vulns (out_addon o) = ["XSS"; " To check : RCE"; " To check : CSRF"].
Proof.
  destruct (@check_vulns_addon_reports Sample.env Sample.self Sample.foo
              {| status_code := 200; text := ""; json := {[ "foo" := Sample.vulns_foo ]};
                 content := [] |}
              Sample.vulns_foo eq_refl eq_refl eq_refl)
    as (o & Ho & _ & Hv & _).
  exists o. split; [exact Ho|]. rewrite Hv. reflexivity.
Defined.

(** X4.  An addon whose installed version is a dotted-numeric string is not
    reported for the entries that are fixed in that version or in an earlier
    one: when every entry of a 200 answer has such a fixed-in version, the
    vulnerability list is left as it was, and [cve] is NO if the list was
    empty. *)
Theorem check_vulns_addon_patched `{Env} (self : WP) (a : addon) (r : response)
    (vulns : list vuln) (ri : list Z) :
  requests_get (addon_vulns_url a) (auth_headers self) = Ok r →
  status_code r = 200 →
  json r !! a_name a = Some vulns →
  numeric_runs (a_version a) = Some ri →
  Forall (λ v, ∃ f rf, vuln_fixed_in v = Some f ∧ numeric_runs f = Some rf ∧
                       lex_compare ri rf ≠ Lt) vulns →
  ∃ o, check_vulns_addon self a = Ok o ∧
       a_vulns (out_addon o) = a_vulns a ∧
       (a_vulns a = [] → a_cve (out_addon o) = "NO").
Proof.
  intros Hget H200 Hkey Hi Hall.
  destruct (check_vulns_addon_200 self a r vulns Hget H200 Hkey)
    as (o & Ho & _ & Hv & Hno & _).
  assert (flat_map (reported (a_version a)) vulns = []) as Hnone.
  { clear -Hi Hall. induction Hall as [|v vulns (f & rf & Hf & Hrf & Hc) _ IH];
      [done|].
    cbn [flat_map]. rewrite IH, app_nil_r. unfold reported.
    rewrite Hf, (lt_numeric _ _ _ _ Hi Hrf).
    by destruct (lex_compare ri rf). }
  rewrite Hnone, app_nil_r in Hv.
  exists o. split; [done|]. split; [done|].
  intros Hempty. apply Hno. by rewrite Hv.
Qed.

Lemma check_vulns_addon_patched_witness :
  ∃ o, @check_vulns_addon SampleStages.patched Sample.self
         (set_version "3.5" Sample.foo) = Ok o ∧
       a_vulns (out_addon o) = [] ∧
       a_cve (out_addon o) = "NO".
Proof.
  destruct (@check_vulns_addon_patched SampleStages.patched
              Sample.self (set_version "3.5" Sample.foo)
              {| status_code := 200; text := "";
                 json := {[ "foo" := take 2 Sample.vulns_foo ]}; content := [] |}
              (take 2 Sample.vulns_foo) [3; 5] eq_refl eq_refl eq_refl eq_refl)
    as (o & Ho & Hv & Hc).
  { repeat constructor.
    - exists "3.5", [3; 5]. by repeat split.
    - exists "0.9", [0; 9]. by repeat split. }
  exists o. split; [exact Ho|]. split; [exact Hv|]. by apply Hc.
Defined.

(** X5.  An addon installed in a dotted-numeric version that is below the
    dotted-numeric fixed-in version of an entry of a 200 answer is reported for
    that entry, under the title of the entry, and its [cve] is YES. *)
Theorem check_vulns_addon_vulnerable `{Env} (self : WP) (a : addon) (r : response)
    (vulns : list vuln) (v : vuln) (f : string) (ri rf : list Z) :
  requests_get (addon_vulns_url a) (auth_headers self) = Ok r →
  status_code r = 200 →
  json r !! a_name a = Some vulns →
  v ∈ vulns →
  numeric_runs (a_version a) = Some ri →
  vuln_fixed_in v = Some f →
  numeric_runs f = Some rf →
  lex_compare ri rf = Lt →
  ∃ o, check_vulns_addon self a = Ok o ∧
       addon_vuln_details (vuln_title v) v ∈ a_vulns (out_addon o) ∧
       a_cve (out_addon o) = "YES".
Proof.
  intros Hget H200 Hkey Hv Hi Hf Hrf Hlt.
  destruct (check_vulns_addon_200 self a r vulns Hget H200 Hkey)
    as (o & Ho & _ & Hvs & _ & Hyes & _).
  assert (addon_vuln_details (vuln_title v) v ∈ a_vulns (out_addon o)) as Hin.
  { rewrite Hvs. apply elem_of_app. right.
    apply list_elem_of_In, in_flat_map. exists v.
    split; [by apply list_elem_of_In|].
    unfold reported. rewrite Hf, (lt_numeric _ _ _ _ Hi Hrf), Hlt. by left. }
  exists o. split; [done|]. split; [done|].
  apply Hyes. intros Hempty. rewrite Hempty in Hin. by apply elem_of_nil in Hin.
Qed.

(** The sample plugin in version 3.0 and the entry fixed in 3.5. *)
Lemma check_vulns_addon_vulnerable_witness :
  ∃ o, @check_vulns_addon Sample.env Sample.self Sample.foo = Ok o ∧
       {| vd_name := "XSS"; vd_link := "https://wpvulndb.com/vulnerabilities/1";
          vd_type := "XSS"; vd_poc := "CHECK"; vd_fixed_in := Some "3.5" |}
         ∈ a_vulns (out_addon o) ∧
       a_cve (out_addon o) = "YES".
Proof.
  refine (@check_vulns_addon_vulnerable Sample.env Sample.self Sample.foo
            {| status_code := 200; text := ""; json := {[ "foo" := Sample.vulns_foo ]};
               content := [] |}
            Sample.vulns_foo
            {| vuln_id := 1; vuln_title := "XSS"; vuln_type := "XSS";
               vuln_fixed_in := Some "3.5" |}
            "3.5" [3; 0] [3; 5] eq_refl eq_refl eq_refl _ eq_refl eq_refl eq_refl eq_refl).
  apply elem_of_cons. by left.
Defined.

(** X6.  For an addon whose installed version is unknown (the empty string)
    every entry of a 200 answer is kept, in order, each one marked
    [" To check : "]: none is dropped and none is reported as established. *)
Theorem check_vulns_addon_unknown_version `{Env} (self : WP) (a : addon)
    (r : response) (vulns : list vuln) :
  requests_get (addon_vulns_url a) (auth_headers self) = Ok r →
  status_code r = 200 →
  json r !! a_name a = Some vulns →
  a_version a = "" →
  ∃ o, check_vulns_addon self a = Ok o ∧
       a_vulns (out_addon o) =
         a_vulns a ++
         ((λ v, addon_vuln_details (" To check : " +:+ vuln_title v) v) <$> vulns).
Proof.
  intros Hget H200 Hkey Hver.
  destruct (check_vulns_addon_200 self a r vulns Hget H200 Hkey)
    as (o & Ho & _ & Hvs & _).
  exists o. split; [done|]. rewrite Hvs, Hver. reflexivity.
Qed.

Lemma check_vulns_addon_unknown_version_witness :
  ∃ o, @check_vulns_addon Sample.env Sample.self SampleStages.unversioned = Ok o ∧
       vd_name <$> a_vulns (out_addon o) =
       [" To check : XSS"; " To check : SQLi"; " To check : RCE"; " To check : CSRF"].
Proof.
  destruct (@check_vulns_addon_unknown_version Sample.env Sample.self
              SampleStages.unversioned
              {| status_code := 200; text := ""; json := {[ "foo" := Sample.vulns_foo ]};
                 content := [] |}
              Sample.vulns_foo eq_refl eq_refl eq_refl eq_refl)
    as (o & Ho & Hv).
  exists o. split; [exact Ho|]. rewrite Hv. reflexivity.
Defined.

(** X7.  Whatever the vulnerability database answers, a record that enters the
    check without vulnerabilities and leaves it with some has [cve] set to
    YES; and the check never removes or reorders the vulnerabilities that were
    in the record. *)
Theorem check_vulns_addon_cve_invariant `{Env} (self : WP) (a : addon)
    (o : stage_out (str_or vuln)) :
  check_vulns_addon self a = Ok o →
  (∃ new, a_vulns (out_addon o) = a_vulns a ++ new) ∧
  (a_vulns a = [] → a_vulns (out_addon o) ≠ [] → a_cve (out_addon o) = "YES").
Proof.
  intros Ho. destruct (check_vulns_addon_shape self a o Ho) as (vulns & Hv & _ & Hc).
  split; [by eexists|].
  intros Hempty Hne. apply Hc; [done|]. by rewrite Hempty.
Qed.

Lemma check_vulns_addon_cve_invariant_witness :
  ∃ o, @check_vulns_addon Sample.env Sample.self Sample.foo = Ok o ∧
       a_cve (out_addon o) = "YES" ∧
       ∃ new, a_vulns (out_addon o) = a_vulns Sample.foo ++ new.
Proof.
  eexists. split; [reflexivity|].
  destruct (@check_vulns_addon_cve_invariant Sample.env Sample.self Sample.foo
              _ eq_refl) as [Hnew Hc].
  split; [|exact Hnew]. apply Hc; [reflexivity|discriminate].
Defined.

(** X8.  Every record that the check adds carries a proof-of-concept flag
    that is YES when [get_poc] answers true for the link of the record and
    CHECK when it answers false: if this holds of the records that were in
    the list, it holds of all the records after the check. *)
Theorem check_vulns_addon_poc `{Env} (self : WP) (a : addon)
    (o : stage_out (str_or vuln)) :
  check_vulns_addon self a = Ok o →
  Forall poc_checked (a_vulns a) →
  Forall poc_checked (a_vulns (out_addon o)).
Proof.
  intros Ho Hold. destruct (check_vulns_addon_shape self a o Ho) as (vulns & -> & _).
  apply Forall_app. split; [done|].
  clear. induction vulns as [|v vulns IH]; [constructor|].
  cbn [flat_map]. apply Forall_app. split; [apply reported_poc_checked|done].
Qed.

(** A proof of concept is known for the third sample entry only. *)
Lemma check_vulns_addon_poc_witness :
  ∃ o, @check_vulns_addon SampleStages.with_poc Sample.self Sample.foo = Ok o ∧
       vd_poc <$> a_vulns (out_addon o) = ["CHECK"; "YES"; "CHECK"] ∧
       Forall (@poc_checked SampleStages.with_poc) (a_vulns (out_addon o)).
Proof.
  eexists. split; [reflexivity|]. split; [reflexivity|].
  apply (@check_vulns_addon_poc SampleStages.with_poc Sample.self Sample.foo _ eq_refl).
  constructor.
Defined.

(** ** The vulnerabilities of the core *)

(** X9.  When the vulnerability database answers 200 and the answer holds no
    entry under the version as it was given, dots included, the core check
    raises [KeyError] for that version: nothing is returned, although the
    address queried is built from the version without its dots. *)
Theorem check_vulns_core_missing_key `{Env} (self : WP) (version_core : string)
    (r : response) :
  requests_get (cve_ref_url +:+ "wordpresses/" +:+ remove_dots version_core)
               (auth_headers self) = Ok r →
  status_code r = 200 →
  json r !! version_core = None →
  check_vulns_core self version_core = Raise (KeyError version_core).
Proof.
  intros Hget H200 Hkey. unfold check_vulns_core, core_vulns_url.
  rewrite Hget. unfold_result. rewrite H200, not_error_200. simpl.
  by rewrite Hkey.
Qed.

(** The answer for 5.2 is keyed by 52. *)
Lemma check_vulns_core_missing_key_witness :
  @check_vulns_core SampleStages.env Sample.self "5.2" = Raise (KeyError "5.2").
Proof.
  exact (@check_vulns_core_missing_key SampleStages.env Sample.self "5.2"
           {| status_code := 200; text := ""; json := {[ "52" := Sample.vulns_foo ]};
              content := [] |} eq_refl eq_refl eq_refl).
Defined.

Section MoreCoreFacts.
Context `{Env}.

Lemma core_vuln_details_poc v : poc_checked (core_vuln_details v).
Proof.
  unfold poc_checked, core_vuln_details. simpl.
  destruct (get_poc _); [left|right]; done.
Qed.

Lemma core_details_poc vs : Forall poc_checked (core_vuln_details <$> vs).
Proof.
  apply Forall_fmap, Forall_forall. intros w _. apply core_vuln_details_poc.
Qed.

End MoreCoreFacts.

(** X10.  Whatever the vulnerability database answers, every record of a list
    returned by the core check links to the page of its entry and carries a
    proof-of-concept flag that is YES when [get_poc] answers true for that
    link and CHECK when it answers false; and an error is returned only with
    the empty string, never with a list. *)
Theorem check_vulns_core_records `{Env} (self : WP) (version_core : string)
    (lg : list log_entry) (value : str_or vuln_details) (err : option exn) :
  check_vulns_core self version_core = Ok (lg, value, err) →
  match value with
  | Lst ds => err = None ∧ Forall poc_checked ds
  | Str s => s = "" ∧ ∃ status, err = Some (HTTPError status) ∧
                                is_http_error status = true
  end.
Proof.
  unfold check_vulns_core. unfold_result.
  destruct (requests_get _ _) as [r|e]; [|done].
  destruct (is_http_error (status_code r)) eqn:Herr.
  { intros [= <- <- <-]. split; [done|]. by eexists. }
  destruct (status_code r =? 200); [|intros [= <- <- <-]; by split].
  destruct (json r !! version_core) as [vulns|]; [|done].
  destruct vulns as [|v vulns]; [intros [= <- <- <-]; by split|].
  change (0 <? Z.of_nat (length (v :: vulns))) with true. cbv iota.
  pose proof (core_loop_spec (v :: vulns) [] [print_cms "info" "[+] CVE list" "" 1])
    as Hloop.
  destruct (core_loop (v :: vulns) [] _) as [ds lg']. cbn [fst app] in Hloop.
  subst ds. intros [= <- <- <-]. split; [done|].
  apply (core_details_poc (v :: vulns)).
Qed.

Lemma check_vulns_core_records_witness :
  ∃ lg ds, @check_vulns_core SampleStages.with_poc Sample.self "4.9" = Ok (lg, Lst ds, None) ∧
           vd_poc <$> ds = ["CHECK"; "CHECK"; "YES"; "CHECK"] ∧
           Forall (@poc_checked SampleStages.with_poc) ds.
Proof.
  eexists _, _. split; [reflexivity|]. split; [reflexivity|].
  exact (proj2 (@check_vulns_core_records SampleStages.with_poc Sample.self "4.9"
                  _ _ _ eq_refl)).
Defined.

(** ** The latest version *)

Section MoreReleaseFacts.
Context `{Env}.

Lemma before_T_no_T s : ¬ In "T"%char (list_ascii_of_string (before_T s)).
Proof.
  induction s as [|c s IH]; simpl; [tauto|].
  destruct (Ascii.eqb_spec c "T"); simpl; [tauto|]. intros [Hc|Hin]; auto.
Qed.

Lemma before_T_prefix s : String.prefix (before_T s) s = true.
Proof.
  induction s as [|c s IH]; simpl; [done|].
  destruct (Ascii.eqb_spec c "T"); simpl; [done|].
  destruct (ascii_dec c c); [done|congruence].
Qed.

Lemma before_T_stops s :
  before_T s = s ∨
  String.get (String.length (before_T s)) s = Some "T"%char.
Proof.
  induction s as [|c s IH]; simpl; [by left|].
  destruct (Ascii.eqb_spec c "T") as [->|Hc]; simpl; [by right|].
  destruct IH as [-> | IH]; [by left|by right].
Qed.

End MoreReleaseFacts.

(** X11.  When the listing page is fetched (status 200) and one of the two
    patterns does not match, nothing is recorded: the record is returned as it
    was, with the latest version it had (the default [Not found] for a record
    made by [addon_analysis]), no line is logged and no error is returned. *)
Theorem get_addon_last_version_partial_match `{Env} (a : addon) (r : response)
    (vre dre : string) :
  requests_get (releases_url_of a) [] = Ok r →
  status_code r = 200 →
  web_regexps (a_type a) = Some (vre, dre) →
  re_search vre (text r) = None ∨ re_search dre (text r) = None →
  get_addon_last_version a = returned a [] (a_last_version a) None.
Proof.
  intros Hget H200 Hre Hnone.
  unfold get_addon_last_version. rewrite Hget. unfold_result.
  rewrite H200, not_error_200. simpl. rewrite Hre. simpl.
  destruct Hnone as [-> | ->]; [done|]. by destruct (re_search vre (text r)).
Qed.

(** A page that shows a version and no date. *)
Lemma get_addon_last_version_partial_match_witness :
  @get_addon_last_version SampleStages.undated SampleStages.qux
  = returned SampleStages.qux [] "Not found" None.
Proof.
  exact (@get_addon_last_version_partial_match SampleStages.undated SampleStages.qux
           {| status_code := 200; text := "page"; json := ∅; content := [] |}
           regex_version_addon_web_plugin regex_date_last_release_plugin
           eq_refl eq_refl eq_refl (or_intror eq_refl)).
Defined.

(** X12.  When the listing page is fetched (status 200) and both patterns
    match, the stage returns the version found and records it together with
    the address of the page and the date found, cut before its first [T]: the
    recorded date holds no [T], it is the beginning of the date found, and it
    is either all of it or followed by a [T] there.  No other key of the
    record is written. *)
Theorem get_addon_last_version_records `{Env} (a : addon) (r : response)
    (vre dre v d : string) :
  requests_get (releases_url_of a) [] = Ok r →
  status_code r = 200 →
  web_regexps (a_type a) = Some (vre, dre) →
  re_search vre (text r) = Some v →
  re_search dre (text r) = Some d →
  ∃ o, get_addon_last_version a = Ok o ∧
       out_value o = v ∧
       a_last_version (out_addon o) = v ∧
       a_link (out_addon o) = site_url +:+ a_type a +:+ "/" +:+ a_name a +:+ "/" ∧
       ¬ In "T"%char (list_ascii_of_string (a_last_release_date (out_addon o))) ∧
       String.prefix (a_last_release_date (out_addon o)) d = true ∧
       (a_last_release_date (out_addon o) = d ∨
        String.get (String.length (a_last_release_date (out_addon o))) d
          = Some "T"%char) ∧
       same_but_release (out_addon o) a.
Proof.
  intros Hget H200 Hre Hv Hd.
  unfold get_addon_last_version. rewrite Hget. unfold_result.
  rewrite H200, not_error_200. simpl. rewrite Hre, Hv, Hd. simpl.
  eexists. split; [done|]. simpl.
  split; [done|]. split; [done|]. split; [done|].
  split; [apply before_T_no_T|]. split; [apply before_T_prefix|].
  split; [apply before_T_stops|]. by repeat split.
Qed.

Lemma get_addon_last_version_records_witness :
  ∃ o, @get_addon_last_version Sample.env Sample.foo = Ok o ∧
       a_last_version (out_addon o) = "2.0" ∧
       a_last_release_date (out_addon o) = "2019-03-02" ∧
       a_link (out_addon o) = "https://wordpress.org/plugins/foo/".
Proof.
  destruct (@get_addon_last_version_records Sample.env Sample.foo
              {| status_code := 200; text := "page"; json := ∅; content := [] |}
              regex_version_addon_web_plugin regex_date_last_release_plugin
              "2.0" "2019-03-02T10:00:00"
              eq_refl eq_refl eq_refl eq_refl eq_refl)
    as (o & Ho & _ & Hv & Hl & _).
  exists o. split; [exact Ho|]. split; [exact Hv|].
  split; [|exact Hl]. injection Ho as <-. reflexivity.
Defined.

(** X13.  For a record whose type is neither [plugins] nor [themes] no pattern
    is chosen: when the page is fetched with status 200 the stage raises
    [UnboundLocalError]; with any other status the patterns are not used and
    the stage returns, with the note and the error for an error status and
    with the record as it was otherwise. *)
Theorem get_addon_last_version_unknown_type `{Env} (a : addon) (r : response) :
  requests_get (releases_url_of a) [] = Ok r →
  a_type a ≠ "plugins" →
  a_type a ≠ "themes" →
  (status_code r = 200 → get_addon_last_version a = Raise UnboundLocalError) ∧
  (status_code r ≠ 200 →
     ∃ o, get_addon_last_version a = Ok o ∧
          (is_http_error (status_code r) = true →
             out_err o = Some (HTTPError (status_code r)) ∧
             a_notes (out_addon o) = "Addon not on official site. Search manually !") ∧
          (is_http_error (status_code r) = false →
             out_err o = None ∧ out_addon o = a)).
Proof.
  intros Hget Hp Ht.
  assert (web_regexps (a_type a) = None) as Hre.
  { unfold web_regexps.
    destruct (String.eqb_spec (a_type a) "plugins"); [done|].
    by destruct (String.eqb_spec (a_type a) "themes"). }
  unfold get_addon_last_version. rewrite Hget, Hre. unfold_result. split.
  - intros ->. by rewrite not_error_200.
  - intros Hne. destruct (is_http_error (status_code r)).
    + eexists. split; [done|]. by split.
    + destruct (Z.eqb_spec (status_code r) 200); [done|].
      eexists. split; [done|]. by split.
Qed.

Lemma get_addon_last_version_unknown_type_witness :
  @get_addon_last_version SampleStages.env SampleStages.gadget
    = Raise UnboundLocalError ∧
  ∃ o, @get_addon_last_version SampleStages.env
         (set_version "3.0" (new_addon "gadgets" "bar" None)) = Ok o ∧
       out_err o = Some (HTTPError 404).
Proof.
  split.
  - refine (proj1 (@get_addon_last_version_unknown_type SampleStages.env
                     SampleStages.gadget
                     {| status_code := 200; text := "page"; json := ∅; content := [] |}
                     eq_refl _ _) eq_refl); discriminate.
  - destruct (@get_addon_last_version_unknown_type SampleStages.env
                (set_version "3.0" (new_addon "gadgets" "bar" None))
                {| status_code := 404; text := ""; json := ∅; content := [] |}
                eq_refl) as [_ Hother]; [discriminate..|].
    destruct Hother as (o & Ho & Herr & _); [discriminate|].
    exists o. split; [exact Ho|]. by apply Herr.
Defined.

(** ** The alteration check *)

(** X14.  When the archive is fetched (status 200) and unpacked, the
    directory of the addon and the reference directory being there to be
    hashed, the stage returns the flag it records in [altered], which is YES
    or NO, writes no key other than [altered] and [alterations], returns no
    error, and ends its log with the place of the extracted archive, the
    temporary directory joined with the name of the addon.  Nothing is caught
    on the way there: when unpacking raises (the body is no archive; the
    exception is not the [HTTPError] of the handler) the stage raises the same
    exception, and when one of the two directories is not there it raises the
    [TypeError] of [dirhash]. *)
Theorem check_addon_alteration_records `{Env} (a : addon) (addon_path tmp : string)
    (r : response) :
  requests_get (addon_url_of a) [] = Ok r →
  status_code r = 200 →
  (extractall r tmp = Ok tt →
   isdir addon_path = true →
   isdir (path_join tmp [a_name a]) = true →
   ∃ o, check_addon_alteration a addon_path tmp = Ok o ∧
        out_err o = None ∧
        out_value o = a_altered (out_addon o) ∧
        (a_altered (out_addon o) = "YES" ∨ a_altered (out_addon o) = "NO") ∧
        same_but_alteration (out_addon o) a ∧
        last (out_log o) =
          Some (print_cms "info"
                  ("[+] For further analysis, archive downloaded here : "
                   +:+ path_join tmp [a_name a]) "" 1)) ∧
  (∀ e, extractall r tmp = Raise e →
        (∀ st, e ≠ HTTPError st) →
        check_addon_alteration a addon_path tmp = Raise e) ∧
  (extractall r tmp = Ok tt →
   isdir addon_path = false ∨ isdir (path_join tmp [a_name a]) = false →
   check_addon_alteration a addon_path tmp = Raise TypeError).
Proof.
  intros Hget H200. split; [|split].
  - intros Hzip Hdir Href.
    rewrite (check_addon_alteration_200 a addon_path tmp r Hget H200 Hzip Hdir Href).
    cbv zeta.
    destruct (String.eqb _ _); (eexists; split; [done|]; simpl);
      (split; [done|]; split; [done|]; split; [by auto|]; by repeat split).
  - intros e Hzip _. unfold check_addon_alteration. rewrite Hget. unfold_result.
    rewrite H200, not_error_200. change (200 =? 200) with true. cbv beta iota.
    by rewrite Hzip.
  - intros Hzip Hno. unfold check_addon_alteration, dirhash_at.
    rewrite Hget. unfold_result.
    rewrite H200, not_error_200. change (200 =? 200) with true. cbv beta iota.
    rewrite Hzip. cbv beta iota.
    destruct (isdir addon_path); [|done]. destruct Hno as [Hno|Hno]; [done|].
    by rewrite Hno.
Qed.

(** The sample plugin and its archive; the same download when what is sent
    is no archive. *)
Lemma check_addon_alteration_records_witness :
  (∃ o, @check_addon_alteration Sample.env Sample.foo
          "/var/www/wp-content/plugins/foo" "/tmp/comission" = Ok o ∧
        out_value o = "YES" ∧
        last (out_log o) =
          Some (print_cms "info"
                  "[+] For further analysis, archive downloaded here : /tmp/comission/foo"
                  "" 1)) ∧
  @check_addon_alteration Sample.corrupt Sample.foo
    "/var/www/wp-content/plugins/foo" "/tmp/comission" = Raise BadZipFile.
Proof.
  split.
  - destruct (proj1 (@check_addon_alteration_records Sample.env Sample.foo
                       "/var/www/wp-content/plugins/foo" "/tmp/comission"
                       {| status_code := 200; text := ""; json := ∅;
                          content := Sample.reference |} eq_refl eq_refl)
                    eq_refl eq_refl eq_refl)
      as (o & Ho & _ & Hv & _ & _ & Hlog).
    exists o. split; [exact Ho|]. split; [|exact Hlog].
    rewrite Hv. injection Ho as <-. reflexivity.
  - refine (proj1 (proj2 (@check_addon_alteration_records Sample.corrupt Sample.foo
                            "/var/www/wp-content/plugins/foo" "/tmp/comission"
                            {| status_code := 200; text := ""; json := ∅;
                               content := Sample.reference |} eq_refl eq_refl))
                  BadZipFile eq_refl _).
    discriminate.
Defined.

(** X15.  An answer whose status is neither 200 nor an error status is not an
    error for the two stages that fetch a page or an archive: the latest
    version stage returns the record as it was, with its latest version and no
    line logged; the alteration stage returns the record as it was, the empty
    string as flag, and has logged the address of the archive only. *)
Theorem stages_ignore_other_statuses `{Env} (a : addon) (addon_path tmp : string)
    (r rz : response) :
  requests_get (releases_url_of a) [] = Ok r →
  requests_get (addon_url_of a) [] = Ok rz →
  (is_http_error (status_code r) = false → status_code r ≠ 200 →
     get_addon_last_version a = returned a [] (a_last_version a) None) ∧
  (is_http_error (status_code rz) = false → status_code rz ≠ 200 →
     check_addon_alteration a addon_path tmp =
     returned a [print_cms "default" ("To download the addon: " +:+ addon_url_of a) "" 1]
              "" None).
Proof.
  intros Hget Hgetz. split; intros Herr Hne.
  - unfold get_addon_last_version. rewrite Hget. unfold_result. rewrite Herr.
    by destruct (Z.eqb_spec (status_code r) 200).
  - unfold check_addon_alteration. rewrite Hgetz. unfold_result. rewrite Herr.
    by destruct (Z.eqb_spec (status_code rz) 200).
Qed.

Lemma stages_ignore_other_statuses_witness :
  @get_addon_last_version SampleStages.env SampleStages.odd
    = returned SampleStages.odd [] "Not found" None ∧
  ∃ lg, @check_addon_alteration SampleStages.env SampleStages.odd "/p" "/t"
        = returned SampleStages.odd lg "" None.
Proof.
  destruct (@stages_ignore_other_statuses SampleStages.env SampleStages.odd "/p" "/t"
              {| status_code := 204; text := ""; json := ∅; content := [] |}
              {| status_code := 204; text := ""; json := ∅; content := [] |}
              eq_refl eq_refl) as [Hlast Halt].
  split.
  - apply Hlast; [reflexivity|discriminate].
  - eexists. apply Halt; [reflexivity|discriminate].
Defined.

(** X25.  On every return of the latest-version stage the value handed back
    agrees with the record: without an error it is the latest version that
    the record holds after the stage, with an error it is the empty string.
    The stage never writes the installed version, the vulnerabilities, [cve],
    [altered] or [alterations]. *)
Theorem get_addon_last_version_value `{Env} (a : addon) (o : stage_out string) :
  get_addon_last_version a = Ok o →
  (out_err o = None → out_value o = a_last_version (out_addon o)) ∧
  (out_err o ≠ None → out_value o = "" ∧ a_last_version (out_addon o) = a_last_version a) ∧
  a_version (out_addon o) = a_version a ∧
  a_vulns (out_addon o) = a_vulns a ∧
  a_cve (out_addon o) = a_cve a ∧
  a_altered (out_addon o) = a_altered a ∧
  a_alterations (out_addon o) = a_alterations a.
Proof.
  unfold get_addon_last_version. unfold_result.
  destruct (requests_get _ _) as [r|e]; [|done].
  destruct (is_http_error (status_code r)).
  { by intros [= <-]. }
  destruct (status_code r =? 200); [|by intros [= <-]].
  destruct (web_regexps (a_type a)) as [[vre dre]|]; [|done].
  destruct (re_search vre (text r)), (re_search dre (text r));
    by intros [= <-].
Qed.

Lemma get_addon_last_version_value_witness :
  ∃ o, @get_addon_last_version Sample.env Sample.bar = Ok o ∧
       out_value o = "" ∧ a_last_version (out_addon o) = "Not found".
Proof.
  eexists. split; [reflexivity|].
  refine (proj1 (proj2 (@get_addon_last_version_value Sample.env Sample.bar _ eq_refl)) _).
  discriminate.
Defined.

(** ** The stages of one addon *)

Section MorePipelineFacts.
Context `{Env}.
Variable self : WP.

Lemma find_suspects_filter dir_path dirs :
  (∀ d, d ∈ dirs → is_Some (walk_dirs (path_join dir_path [d]))) →
  ∀ acc, find_suspects dir_path dirs acc
         = Ok (acc ++ filter (λ d, holds_both dir_path d = true) dirs).
Proof.
  induction dirs as [|d dirs IH]; intros Hwalk acc.
  - simpl. by rewrite app_nil_r.
  - cbn [find_suspects]. rewrite filter_cons.
    destruct (Hwalk d) as [sub Hsub]; [apply elem_of_cons; by left|].
    assert (holds_both dir_path d = issubset ["plugins"; "themes"] sub) as Hhb
      by (unfold holds_both; by rewrite Hsub).
    rewrite Hsub. unfold_result.
    assert (∀ d', d' ∈ dirs → is_Some (walk_dirs (path_join dir_path [d'])))
      as Hrest by (intros d' Hd'; apply Hwalk, elem_of_cons; by right).
    destruct (issubset ["plugins"; "themes"] sub).
    + rewrite decide_True by exact Hhb. rewrite IH by done.
      by rewrite <- app_assoc.
    + rewrite decide_False by (rewrite Hhb; discriminate). by rewrite IH.
Qed.

End MorePipelineFacts.

(** X16.  When the version of an addon cannot be extracted (the version stage
    reports an error), [addon_analysis] is done with the addon: the record
    appended is the one the version stage left, the log holds the line of the
    addon and the lines of that stage, and no request is sent -- the outcome is
    the same when the network is down. *)
Theorem analyse_addon_stops_at_version `{Env} (self : WP)
    (addon_type key addons_path tmp name : string) (o : stage_out string) :
  get_addon_version (first_record addon_type key addons_path name)
                    (first_path addon_type key addons_path name)
                    regex_version_addon " " = Ok o →
  out_err o ≠ None →
  analyse_addon self addon_type key addons_path tmp name
  = Ok (out_addon o, print_cms "info" ("[+] " +:+ name) "" 0 :: out_log o).
Proof.
  intros Hver Herr. rewrite analyse_addon_unfold. cbv zeta.
  rewrite Hver. unfold mbind, result_bind, rbind.
  by rewrite bool_decide_eq_true_2.
Qed.

(** The plugin [old] has no main file; the network is down. *)
Lemma analyse_addon_stops_at_version_witness :
  ∃ a lg, @analyse_addon SampleStages.offline Sample.self "plugins" "standard"
            "/plugins" "/tmp/comission" "old" = Ok (a, lg) ∧
          a_notes a = "No standard extension file. Search manually !" ∧
          a_last_version a = "Not found" ∧ a_cve a = "" ∧ a_altered a = "".
Proof.
  eexists _, _. split.
  - refine (@analyse_addon_stops_at_version SampleStages.offline Sample.self
              "plugins" "standard" "/plugins" "/tmp/comission" "old" _ eq_refl _).
    discriminate.
  - repeat split.
Defined.

(** X17.  When the official site does not list an addon (the latest-version
    stage reports an error), [addon_analysis] is done with the addon: neither
    the vulnerability database nor the archive is consulted, so the record
    appended has the note of that stage and, for the rest, is the record that
    the version stage left. *)
Theorem analyse_addon_stops_at_listing `{Env} (self : WP)
    (addon_type key addons_path tmp name : string) (o1 o2 : stage_out string) :
  get_addon_version (first_record addon_type key addons_path name)
                    (first_path addon_type key addons_path name)
                    regex_version_addon " " = Ok o1 →
  out_err o1 = None →
  get_addon_last_version (out_addon o1) = Ok o2 →
  out_err o2 ≠ None →
  analyse_addon self addon_type key addons_path tmp name
  = Ok (out_addon o2,
        print_cms "info" ("[+] " +:+ name) "" 0 :: out_log o1 ++ out_log o2) ∧
  a_notes (out_addon o2) = "Addon not on official site. Search manually !" ∧
  same_but_notes (out_addon o2) (out_addon o1).
Proof.
  intros Hver Hok Hlast Herr. split.
  - rewrite analyse_addon_unfold. cbv zeta.
    rewrite Hver. unfold mbind at 1, result_bind at 1, rbind at 1.
    rewrite bool_decide_eq_false_2 by (rewrite Hok; tauto).
    rewrite Hlast. unfold mbind, result_bind, rbind.
    rewrite bool_decide_eq_true_2 by done. by rewrite <- app_assoc.
  - rewrite (get_addon_last_version_failed _ _ Hlast Herr).
    split; [done|]. by repeat split.
Qed.

(** The plugin [bar] of the sample site. *)
Lemma analyse_addon_stops_at_listing_witness :
  ∃ a lg, @analyse_addon Sample.env Sample.self "plugins" "standard"
            "/plugins" "/tmp/comission" "bar" = Ok (a, lg) ∧
          a_notes a = "Addon not on official site. Search manually !" ∧
          a_version a = "3.0" ∧ a_cve a = "" ∧ a_altered a = "".
Proof.
  eexists _, _. split.
  - refine (proj1 (@analyse_addon_stops_at_listing Sample.env Sample.self
              "plugins" "standard" "/plugins" "/tmp/comission" "bar"
              _ _ eq_refl eq_refl eq_refl _)).
    discriminate.
  - repeat split.
Defined.

(** X18.  When the vulnerability database has no entry for an addon (the
    vulnerability stage reports an error), [addon_analysis] is done with the
    addon and never looks at its files: the record appended has [cve] set to
    NO and, for the rest, is the record that the latest-version stage left --
    its [altered] flag and its [alterations] are as they were. *)
Theorem analyse_addon_stops_at_vulns `{Env} (self : WP)
    (addon_type key addons_path tmp name : string) (o1 o2 : stage_out string)
    (o3 : stage_out (str_or vuln)) :
  get_addon_version (first_record addon_type key addons_path name)
                    (first_path addon_type key addons_path name)
                    regex_version_addon " " = Ok o1 →
  out_err o1 = None →
  get_addon_last_version (out_addon o1) = Ok o2 →
  out_err o2 = None →
  check_vulns_addon self (out_addon o2) = Ok o3 →
  out_err o3 ≠ None →
  analyse_addon self addon_type key addons_path tmp name
  = Ok (out_addon o3,
        print_cms "info" ("[+] " +:+ name) "" 0
        :: out_log o1 ++ out_log o2 ++ out_log o3) ∧
  a_cve (out_addon o3) = "NO" ∧
  same_but_cve (out_addon o3) (out_addon o2).
Proof.
  intros Hver Hok1 Hlast Hok2 Hvulns Herr. split.
  - rewrite analyse_addon_unfold. cbv zeta.
    rewrite Hver. unfold mbind at 1, result_bind at 1, rbind at 1.
    rewrite bool_decide_eq_false_2 by (rewrite Hok1; tauto).
    rewrite Hlast. unfold mbind at 1, result_bind at 1, rbind at 1.
    rewrite bool_decide_eq_false_2 by (rewrite Hok2; tauto).
    rewrite Hvulns. unfold mbind, result_bind, rbind.
    rewrite bool_decide_eq_true_2 by done. by rewrite <- !app_assoc.
  - rewrite (check_vulns_addon_failed self _ _ Hvulns Herr).
    split; [done|]. by repeat split.
Qed.

(** The plugin [qux] is listed on the official site and unknown to the
    vulnerability database. *)
Lemma analyse_addon_stops_at_vulns_witness :
  ∃ a lg, @analyse_addon SampleStages.env Sample.self "plugins" "standard"
            "/plugins" "/tmp/comission" "qux" = Ok (a, lg) ∧
          a_last_version a = "2.0" ∧ a_cve a = "NO" ∧
          a_altered a = "" ∧ a_alterations a = [] ∧ a_notes a = "".
Proof.
  eexists _, _. split.
  - refine (proj1 (@analyse_addon_stops_at_vulns SampleStages.env Sample.self
              "plugins" "standard" "/plugins" "/tmp/comission" "qux"
              _ _ _ eq_refl eq_refl eq_refl eq_refl eq_refl _)).
    discriminate.
  - repeat split.
Defined.

(** X19.  For a type of addon other than [plugins] and [themes],
    [addon_analysis] looks at no directory: it returns the empty list, having
    logged its banner, whatever the state of the site and of the network. *)
Theorem addon_analysis_unknown_type `{Env} (self : WP) (addon_type : string) :
  addon_type ≠ "plugins" →
  addon_type ≠ "themes" →
  discovered self addon_type = [] ∧
  ∃ banner, addon_analysis self addon_type = Ok ([], [banner]).
Proof.
  intros Hp Ht. unfold discovered, addon_analysis, addons_paths_of.
  destruct (String.eqb_spec addon_type "plugins"); [done|].
  destruct (String.eqb_spec addon_type "themes"); [done|].
  split; [done|]. by eexists.
Qed.

Lemma addon_analysis_unknown_type_witness :
  ∃ banner, @addon_analysis SampleStages.offline Sample.self "widgets"
            = Ok ([], [banner]).
Proof.
  refine (proj2 (@addon_analysis_unknown_type SampleStages.offline Sample.self
                   "widgets" _ _)); discriminate.
Defined.

(** ** The main file of an addon *)

(** X20.  The main file of a plugin is the file named after the plugin when
    that file exists, else [plugin.php] when that file exists, else the name
    [nofile]; the key [mu] of the record has no part in the choice.  The main
    file of a theme is [style.css] whatever files exist.  A record of another
    type is left as it is.  No key other than [filename] is written. *)
Theorem get_addon_main_file_choice `{Env} (a : addon) (addon_path : string) :
  (a_type a = "plugins" →
     a_filename (get_addon_main_file a addon_path) =
       if isfile (path_join addon_path [a_name a +:+ ".php"])
       then a_name a +:+ ".php"
       else if isfile (path_join addon_path ["plugin.php"]) then "plugin.php"
       else "nofile") ∧
  (a_type a = "themes" → a_filename (get_addon_main_file a addon_path) = "style.css") ∧
  (a_type a ≠ "plugins" → a_type a ≠ "themes" → get_addon_main_file a addon_path = a) ∧
  same_but_filename (get_addon_main_file a addon_path) a.
Proof.
  unfold get_addon_main_file.
  destruct (String.eqb_spec (a_type a) "themes") as [Ht|Ht].
  { split; [by rewrite Ht|]. split; [done|]. split; [done|]. by repeat split. }
  destruct (String.eqb_spec (a_type a) "plugins") as [Hp|Hp];
    [|split; [done|]; split; [done|]; split; [done|]; by repeat split].
  destruct (bool_decide (a_mu a ≠ Some "YES")); cbn [app];
    rewrite !filter_cons, filter_nil;
    destruct (isfile (path_join addon_path [a_name a +:+ ".php"]));
    destruct (isfile (path_join addon_path ["plugin.php"])); simpl;
    (split; [done|]; split; [done|]; split; [done|]; by repeat split).
Qed.

(** A plugin without a file of its name and with a [plugin.php]. *)
Lemma get_addon_main_file_choice_witness :
  a_filename (@get_addon_main_file SampleStages.unnamed SampleStages.qux "/plugins/qux")
    = "plugin.php" ∧
  a_filename (@get_addon_main_file SampleStages.unnamed
                (new_addon "themes" "qux" None) "/themes/qux") = "style.css".
Proof.
  destruct (@get_addon_main_file_choice SampleStages.unnamed SampleStages.qux
              "/plugins/qux") as (Hp & _).
  destruct (@get_addon_main_file_choice SampleStages.unnamed
              (new_addon "themes" "qux" None) "/themes/qux") as (_ & Ht & _).
  split; [exact (Hp eq_refl)|exact (Ht eq_refl)].
Defined.

(** ** The discovery of [wp-content] and the constructor *)

(** X21.  For a directory whose sub-directories can be listed, and theirs,
    [get_wp_content] returns the sub-directories that hold both [plugins] and
    [themes], all of them and in the order of the listing, or the single name
    [wp-content] when there is none; it logs a warning followed by one line
    for each name exactly when there are several. *)
Theorem get_wp_content_lists_all `{Env} (dir_path : string) (dirs : list string) :
  walk_dirs dir_path = Some dirs →
  (∀ d, d ∈ dirs → is_Some (walk_dirs (path_join dir_path [d]))) →
  let found := filter (λ d, holds_both dir_path d = true) dirs in
  ∃ lg,
    get_wp_content dir_path
      = Ok (match found with [] => ["wp-content"] | _ => found end, lg) ∧
    ((length found ≤ 1)%nat → lg = []) ∧
    ((1 < length found)%nat →
       ∃ warning, lg = warning :: ((λ p, print_cms "info" ("[+] " +:+ p) "" 1) <$> found)
                  ∧ lg_type warning = "warning").
Proof.
  intros Hwalk Hsubs found.
  unfold get_wp_content. rewrite Hwalk. unfold_result.
  rewrite (find_suspects_filter dir_path dirs Hsubs []). cbn [app]. fold found.
  destruct found as [|d [|d' rest]].
  - eexists. split; [reflexivity|]. split; [intros _; reflexivity|simpl; lia].
  - eexists. split; [reflexivity|]. split; [intros _; reflexivity|simpl; lia].
  - assert ((1 <? Z.of_nat (length (d :: d' :: rest))) = true) as ->
      by (apply Z.ltb_lt; simpl length; lia).
    assert ((Z.of_nat (length (d :: d' :: rest)) =? 0) = false) as ->
      by (apply Z.eqb_neq; simpl length; lia).
    eexists. split; [reflexivity|]. split; [simpl; lia|].
    intros _. eexists. split; reflexivity.
Qed.

Lemma get_wp_content_lists_all_witness :
  ∃ lg, @get_wp_content Sample.env "/var/www" = Ok (["wp-content"], lg) ∧ lg = [].
Proof.
  destruct (@get_wp_content_lists_all Sample.env "/var/www" ["wp-admin"; "wp-content"]
              eq_refl) as (lg & Hget & Hquiet & _).
  { intros d Hd. apply elem_of_cons in Hd as [-> | Hd]; [by eexists|].
    apply elem_of_cons in Hd as [-> | Hd]; [by eexists|].
    by apply elem_of_nil in Hd. }
  exists lg. split; [exact Hget|]. apply Hquiet. vm_compute. lia.
Defined.

(** X22.  When the directory cannot be listed, or one of its sub-directories
    cannot, [get_wp_content] raises [StopIteration], and so does the
    constructor when no [wp-content] is given: no default is returned in that
    case, even if another sub-directory holds both [plugins] and [themes]. *)
Theorem get_wp_content_unlistable `{Env} (dir_path : string) :
  (walk_dirs dir_path = None ∨
   ∃ dirs d, walk_dirs dir_path = Some dirs ∧ d ∈ dirs ∧
             walk_dirs (path_join dir_path [d]) = None) →
  get_wp_content dir_path = Raise StopIteration ∧
  ∀ plugins_dir themes_dir token,
    __init__ dir_path "" plugins_dir themes_dir token = Raise StopIteration.
Proof.
  intros Hbad.
  assert (get_wp_content dir_path = Raise StopIteration) as Hget.
  { unfold get_wp_content. unfold_result.
    destruct Hbad as [-> | (dirs & d & -> & Hd & Hnone)]; [done|].
    by rewrite (find_suspects_stops dir_path dirs d Hd Hnone). }
  split; [done|]. intros plugins_dir themes_dir token.
  unfold __init__. simpl. by rewrite Hget.
Qed.

(** A path that does not exist, and a directory with a sub-directory that
    cannot be listed. *)
Lemma get_wp_content_unlistable_witness :
  @get_wp_content Sample.env "/nowhere" = Raise StopIteration ∧
  @__init__ Sample.env "/var/www/wp-admin" "" "" "" "secret" = Raise StopIteration.
Proof.
  split.
  - apply (@get_wp_content_unlistable Sample.env "/nowhere"). by left.
  - apply (@get_wp_content_unlistable Sample.env "/var/www/wp-admin"). right.
    exists ["css"], "css". split; [reflexivity|]. split; [|reflexivity].
    apply elem_of_cons. by left.
Defined.

(** X23.  When a [wp-content] is given, the constructor does not look at the
    file system and always returns: it keeps the given name, keeps a given
    plugins or themes directory as it is, and puts a directory that is not
    given under the installation directory and the given [wp-content]. *)
Theorem init_with_wp_content `{Env}
    (dir wp plugins themes token : string) :
  wp ≠ "" →
  ∃ w, __init__ dir wp plugins themes token = Ok w ∧
       dir_path w = dir ∧ wp_content w = wp ∧ wpvulndb_token w = token ∧
       (plugins ≠ "" → plugins_dir w = plugins) ∧
       (themes ≠ "" → themes_dir w = themes) ∧
       (plugins = "" → plugins_dir w = path_join dir [wp; "plugins"]) ∧
       (themes = "" → themes_dir w = path_join dir [wp; "themes"]).
Proof.
  intros Hwp. unfold __init__.
  destruct (String.eqb_spec wp ""); [done|]. unfold_result.
  eexists. split; [reflexivity|]. simpl.
  destruct (String.eqb_spec plugins ""), (String.eqb_spec themes "");
    repeat split; done.
Qed.

Lemma init_with_wp_content_witness :
  ∃ w, @__init__ Sample.env "/nowhere" "content" "" "/srv/themes" "secret" = Ok w ∧
       plugins_dir w = "/nowhere/content/plugins" ∧
       themes_dir w = "/srv/themes".
Proof.
  destruct (@init_with_wp_content Sample.env "/nowhere" "content" "" "/srv/themes"
              "secret") as (w & Hw & _ & _ & _ & _ & Ht & Hp & _); [discriminate|].
  exists w. split; [exact Hw|]. split.
  - rewrite (Hp eq_refl). reflexivity.
  - apply Ht. discriminate.
Defined.

(** ** The latest version of the core *)

(** X24.  [extract_core_last_version] returns the version of the first offer
    of the answer, whatever the offers that follow, and records it under
    [last_version] without touching the other keys of the dictionary.  It
    raises [KeyError] when the answer has no [offers] or when the first offer
    has no [version], and [IndexError] when the list of offers is empty. *)
Theorem extract_core_last_version_first_offer
    (page_json : gmap string (list (gmap string string)))
    (infos : gmap string string) :
  match extract_core_last_version page_json infos with
  | Ok (v, infos', lg) =>
      (∃ offer rest, page_json !! "offers" = Some (offer :: rest) ∧
                     offer !! "version" = Some v) ∧
      infos' !! "last_version" = Some v ∧
      (∀ k, k ≠ "last_version" → infos' !! k = infos !! k) ∧
      lg = [print_cms "info" ("[+] Last CMS version: " +:+ v) "" 0]
  | Raise e =>
      (e = KeyError "offers" ∧ page_json !! "offers" = None) ∨
      (e = IndexError ∧ page_json !! "offers" = Some []) ∨
      (e = KeyError "version" ∧
       ∃ offer rest, page_json !! "offers" = Some (offer :: rest) ∧
                     offer !! "version" = None)
  end.
Proof.
  unfold extract_core_last_version. unfold_result.
  destruct (page_json !! "offers") as [[|offer rest]|] eqn:Hoffers; simpl.
  - right; left. done.
  - destruct (offer !! "version") as [v|] eqn:Hv.
    + split; [by eexists _, _|]. split; [by rewrite lookup_insert_eq|].
      split; [|done]. intros k Hk. by rewrite lookup_insert_ne.
    + right; right. split; [done|]. by eexists _, _.
  - left. done.
Qed.
